(** * The Oracle query class of [django/db/backends/oracle/query.py]

    A shallow embedding of [query_class] and of the [OracleQuery] class it
    builds: the class cache [_classes], row resolution and value conversion
    ([resolve_columns], [convert_values]) and the limit/offset rewrite
    ([as_sql], [set_limits], [clear_limits]).

    Python objects are modelled by the data the methods inspect:
    - a value handed over by the driver, or produced by a conversion, is a
      [pyvalue];
    - a model field is a [Field] record carrying its class and the attributes
      read here; the [field] argument itself is an [option Field] ([None] is
      Python's [None]);
    - an exception is an [outcome] that is not [Ok];
    - a method of a query object is a function from the object's state to an
      outcome and the state it leaves behind (a raised exception keeps the
      mutations made before it). *)

From Stdlib Require Import ZArith Floats.SpecFloat.
From stdpp Require Import gmap strings list pretty.

Local Open Scope string_scope.
Local Open Scope Z_scope.

(** ** Exceptions *)

Inductive exn :=
| IndexError
| TypeError
| AttributeError
| ValueError
| OtherError (name : string).

Inductive outcome (A : Type) :=
| Ok (a : A)
| Raise (e : exn).
Arguments Ok {A} a.
Arguments Raise {A} e.

Definition obind {A B} (x : outcome A) (f : A → outcome B) : outcome B :=
  match x with
  | Ok a => f a
  | Raise e => Raise e
  end.

Definition is_Ok {A} (x : outcome A) : bool :=
  match x with Ok _ => true | Raise _ => false end.

(** ** Values *)

(** Calendar values of the [datetime] module (time zones are not used by the
    driver, which returns naive values). *)
Record date := mkDate { d_year : Z; d_month : Z; d_day : Z }.
Record time := mkTime { t_hour : Z; t_minute : Z; t_second : Z; t_microsecond : Z }.
Record datetime := mkDatetime {
  year : Z; month : Z; day : Z;
  hour : Z; minute : Z; second : Z; microsecond : Z }.

(** The classes a driver module can name as its [LOB] or [Timestamp] marker:
    [datetime.datetime] itself (what [cx_Oracle.Timestamp] is on Python 2.4
    and later) or a class of the driver's own, known by its name. *)
Inductive pyclass :=
| ClsDatetime
| ClsDriver (name : string).

(** [VLob c s] is a large-object handle of driver class [c] whose [read()]
    returns [s]; [VTimestamp c ...] is a native timestamp object of driver
    class [c] with its [year] ... [fsecond] attributes; [VDecimal c e] is the
    finite [decimal.Decimal] [c * 10^e]. *)
Inductive pyvalue :=
| VNone
| VBool (b : bool)
| VInt (n : Z)
| VFloat (x : spec_float)
| VDecimal (coef : Z) (exp : Z)
| VStr (s : string)
| VLob (cls : string) (content : string)
| VTimestamp (cls : string) (y mo d h mi s fs : Z)
| VDatetime (dt : datetime)
| VDate (d : date)
| VTime (t : time).

(** [isinstance(value, cls)] for a marker class [cls]. *)
Definition isinstance (v : pyvalue) (cls : pyclass) : bool :=
  match v, cls with
  | VDatetime _, ClsDatetime => true
  | VLob c _, ClsDriver n => String.eqb c n
  | VTimestamp c _ _ _ _ _ _ _, ClsDriver n => String.eqb c n
  | _, _ => false
  end.

(** [value.read()]: only a large-object handle has the method. *)
Definition read (v : pyvalue) : outcome pyvalue :=
  match v with
  | VLob _ s => Ok (VStr s)
  | _ => Raise AttributeError
  end.

Definition is_None (v : pyvalue) : bool :=
  match v with VNone => true | _ => false end.

(** [x == n] for a float [x] and an integer [n]: Python compares the exact
    mathematical values. *)
Definition float_eq_int (x : spec_float) (n : Z) : bool :=
  match x with
  | S754_zero _ => n =? 0
  | S754_finite s m e =>
      let sm := if s then Z.neg m else Z.pos m in
      if 0 <=? e then sm * 2 ^ e =? n else sm =? n * 2 ^ (- e)
  | _ => false
  end.

Definition decimal_eq_int (coef exp n : Z) : bool :=
  if 0 <=? exp then coef * 10 ^ exp =? n else coef =? n * 10 ^ (- exp).

(** [value == n] for an integer literal [n]. *)
Definition py_eq_int (v : pyvalue) (n : Z) : bool :=
  match v with
  | VBool b => Z.b2z b =? n
  | VInt m => m =? n
  | VFloat x => float_eq_int x n
  | VDecimal c e => decimal_eq_int c e n
  | _ => false
  end.

(** [value in (1, 0)]. *)
Definition in_1_0 (v : pyvalue) : bool :=
  py_eq_int v 1 || py_eq_int v 0.

(** [bool(value)]. *)
Definition py_bool (v : pyvalue) : bool :=
  match v with
  | VNone => false
  | VBool b => b
  | VInt n => negb (n =? 0)
  | VFloat (S754_zero _) => false
  | VFloat _ => true
  | VDecimal c _ => negb (c =? 0)
  | VStr s => negb (String.eqb s "")
  | VTime t =>
      negb ((t_hour t * 60 + t_minute t =? 0) && (t_second t =? 0)
            && (t_microsecond t =? 0))
  | _ => true
  end.

(** The [datetime.datetime(...)] constructor: it rejects components that are
    out of range. *)
Definition is_leap (y : Z) : bool :=
  (y mod 4 =? 0) && (negb (y mod 100 =? 0) || (y mod 400 =? 0)).

Definition days_in_month (y m : Z) : Z :=
  if m =? 2 then (if is_leap y then 29 else 28)
  else if (m =? 4) || (m =? 6) || (m =? 9) || (m =? 11) then 30
  else 31.

Definition in_range (lo x hi : Z) : bool := (lo <=? x) && (x <=? hi).

Definition datetime_new (y mo d h mi s us : Z) : outcome datetime :=
  if in_range 1 y 9999 && in_range 1 mo 12 && in_range 1 d (days_in_month y mo)
     && in_range 0 h 23 && in_range 0 mi 59 && in_range 0 s 59
     && in_range 0 us 999999
  then Ok (mkDatetime y mo d h mi s us)
  else Raise ValueError.

Definition datetime_date (dt : datetime) : date :=
  mkDate (year dt) (month dt) (day dt).

Definition datetime_time (dt : datetime) : time :=
  mkTime (hour dt) (minute dt) (second dt) (microsecond dt).

(** Lines 65-68 of [convert_values]: a value that is not a
    [datetime.datetime] already is rebuilt from its [year] ... [fsecond]
    attributes. *)
Definition to_datetime (value : pyvalue) : outcome datetime :=
  match value with
  | VDatetime dt => Ok dt
  | VTimestamp _ y mo d h mi s fs => datetime_new y mo d h mi s fs
  | _ => Raise AttributeError
  end.

(** ** Fields *)

(** The field classes [convert_values] tests for; [OtherField] stands for
    every other subclass of [Field]. *)
Inductive field_class :=
| OtherField
| DateField
| DateTimeField
| TimeField
| BooleanField
| NullBooleanField
| DecimalField.

Global Instance field_class_eq_dec : EqDecision field_class.
Proof. solve_decision. Defined.

(** [issubclass(c, d)] among the classes above, for [d] other than [Field]:
    [DateTimeField] derives from [DateField]. *)
Definition issubclass (c d : field_class) : bool :=
  match c, d with
  | DateTimeField, DateField => true
  | _, _ => bool_decide (c = d)
  end.

(** A field object: its class, the attributes read by this module and its
    [format_number] method (meaningful on a [DecimalField]). *)
Record Field := mkField {
  field_cls : field_class;
  empty_strings_allowed : bool;
  db_column : option string;
  column : string;
  format_number : pyvalue → outcome string }.

(** [isinstance(field, Field)]: every field object is one, [None] is not. *)
Definition is_Field (field : option Field) : bool :=
  match field with Some _ => true | None => false end.

(** [isinstance(field, cls)]. *)
Definition field_isinstance (field : option Field) (cls : field_class) : bool :=
  match field with
  | Some f => issubclass (field_cls f) cls
  | None => false
  end.

(** ** The driver module *)

(** The [Database] module passed to [query_class]: its two type markers. *)
Record DatabaseT := mkDatabase {
  LOB : pyclass;
  Timestamp : pyclass }.

(** ** Query objects *)

(** [self.model._meta]: the table name and the declared fields. *)
Record Options := mkOptions {
  db_table : string;
  fields : list Field }.

(** The attributes of a query object that [OracleQuery] reads or writes,
    and the rest of the base class's state ([base_state]). The bounds are
    [None] or an integer; [extra_select] maps a column alias to its SQL. *)
Record Query (B : Type) := mkQuery {
  low_mark : option Z;
  high_mark : option Z;
  extra_select : gmap string string;
  model_meta : Options;
  base_state : B }.
Arguments mkQuery {B}.
Arguments low_mark {B}.
Arguments high_mark {B}.
Arguments extra_select {B}.
Arguments model_meta {B}.
Arguments base_state {B}.

Definition set_extra_select {B} (es : gmap string string) (q : Query B) : Query B :=
  mkQuery (low_mark q) (high_mark q) es (model_meta q) (base_state q).

Definition set_marks {B} (low high : option Z) (q : Query B) : Query B :=
  mkQuery low high (extra_select q) (model_meta q) (base_state q).

(** A method body: it runs on the object's state, returns or raises, and
    leaves a state behind. *)
Definition M (B A : Type) : Type := Query B → outcome A * Query B.

Global Instance M_ret {B} : MRet (M B) := λ A a q, (Ok a, q).
Global Instance M_bind {B} : MBind (M B) := λ A C f m q,
  match m q with
  | (Ok a, q') => f a q'
  | (Raise e, q') => (Raise e, q')
  end.

Definition get {B A} (f : Query B → A) : M B A := λ q, (Ok (f q), q).
Definition modify {B} (f : Query B → Query B) : M B unit := λ q, (Ok tt, f q).
Definition lift {B A} (x : outcome A) : M B A := λ q, (x, q).

(** The base class handed to [query_class]: its identity as a Python object
    and the methods [OracleQuery] calls through [super] or inherits. *)
Record QueryClassT (B : Type) := mkQueryClass {
  qc_ident : N;
  base_pre_sql_setup : M B unit;
  base_get_columns : M B (list string);
  base_get_ordering : M B (list string);
  base_quote_name_unless_alias : string → M B string;
  base_as_sql : bool → bool → M B (string * list pyvalue);
  base_set_limits : option Z → option Z → M B unit;
  base_clear_limits : M B unit }.
Arguments qc_ident {B}.
Arguments base_pre_sql_setup {B}.
Arguments base_get_columns {B}.
Arguments base_get_ordering {B}.
Arguments base_quote_name_unless_alias {B}.
Arguments base_as_sql {B}.
Arguments base_set_limits {B}.
Arguments base_clear_limits {B}.

(** Truth value of a bound: [None] and [0] are false. *)
Definition truthy_mark (m : option Z) : bool :=
  match m with
  | Some n => negb (n =? 0)
  | None => false
  end.

(** ['%d' % m]. *)
Definition format_d (m : option Z) : outcome string :=
  match m with
  | Some n => Ok (pretty n)
  | None => Raise TypeError
  end.

(** [a or b] on an optional string and a string. *)
Definition or_else (a : option string) (b : string) : string :=
  match a with
  | Some s => if String.eqb s "" then b else s
  | None => b
  end.

(** Python 2's [map(None, xs, ys)]: pairs positionally and pads the shorter
    sequence with [None]. *)
Fixpoint map_None (xs : list pyvalue) (ys : list Field) : list (pyvalue * option Field) :=
  match xs with
  | [] => map (λ y, (VNone, Some y)) ys
  | x :: xs' =>
      match ys with
      | [] => (x, None) :: map_None xs' []
      | y :: ys' => (x, Some y) :: map_None xs' ys'
      end
  end.

(** A loop that converts each element in turn and stops at the first
    exception. *)
Fixpoint each {A C} (f : A → outcome C) (l : list A) : outcome (list C) :=
  match l with
  | [] => Ok []
  | a :: l' => obind (f a) (λ c, obind (each f l') (λ cs, Ok (c :: cs)))
  end.

(** ** The class [OracleQuery(QueryClass)] *)

Section OracleQuery.
(** [util.typecast_decimal], from [django.db.backends.util]. *)
Context (typecast_decimal : string → outcome pyvalue).
Context {B : Type} (QueryClass : QueryClassT B) (Database : DatabaseT).

Definition convert_values (value : pyvalue) (field : option Field) : outcome pyvalue :=
  obind (if isinstance value (LOB Database) then read value else Ok value)
  (λ value,
    if is_None value && is_Field field
       && match field with Some f => empty_strings_allowed f | None => false end
    then Ok (VStr "")
    else if in_1_0 value
            && (field_isinstance field BooleanField
                || field_isinstance field NullBooleanField)
    then Ok (VBool (py_bool value))
    else if negb (is_None value) && field_isinstance field DecimalField
    then
      match field with
      | Some f => obind (format_number f value) typecast_decimal
      | None => Raise AttributeError
      end
    else if isinstance value (Timestamp Database)
    then
      obind (to_datetime value)
      (λ dt,
        if field_isinstance field DateTimeField then Ok (VDatetime dt)
        else if field_isinstance field DateField
        then Ok (VDate (datetime_date dt))
        else if field_isinstance field TimeField
                || ((year dt =? 1900) && (month dt =? day dt) && (day dt =? 1))
        then Ok (VTime (datetime_time dt))
        else if (hour dt =? minute dt) && (minute dt =? second dt)
                && (second dt =? microsecond dt) && (microsecond dt =? 0)
        then Ok (VDate (datetime_date dt))
        else Ok (VDatetime dt))
    else Ok value).

Definition resolve_columns (self : Query B) (row : list pyvalue)
    (fields : list Field) : outcome (list pyvalue) :=
  let index_start := size (extra_select self) in
  obind (each (λ v, convert_values v None) (take index_start row))
  (λ values,
    obind (each (λ '(value, field), convert_values value field)
                (map_None (drop index_start row) fields))
    (λ rest, Ok (values ++ rest)%list)).

Definition rn_expr (rn_orderby : string) : string :=
  "ROW_NUMBER() OVER (ORDER BY " +:+ rn_orderby +:+ " )".

(** Lines 113-115 of [as_sql]: the default order-by, built when
    [get_ordering] is empty. *)
Definition default_orderby : M B string :=
  let qn := base_quote_name_unless_alias QueryClass in
  opts ← get model_meta;
  t ← qn (db_table opts);
  f0 ← lift (match fields opts with
             | f :: _ => Ok f
             | [] => Raise IndexError
             end);
  c ← qn (or_else (db_column f0) (column f0));
  mret (t +:+ "." +:+ c).

(** Lines 102-115 of [as_sql]: set-up, then the order-by text for
    [ROW_NUMBER()]. *)
Definition rn_orderby_sql : M B string :=
  base_pre_sql_setup QueryClass;;
  out_cols ← base_get_columns QueryClass;
  ordering ← base_get_ordering QueryClass;
  match ordering with
  | _ :: _ => mret (String.concat ", " ordering)
  | [] => default_orderby
  end.

Definition as_sql (with_limits with_col_aliases : bool) : M B (string * list pyvalue) :=
  high ← get high_mark;
  low ← get low_mark;
  let do_offset := with_limits && (truthy_mark high || truthy_mark low) in
  if negb do_offset
  then base_as_sql QueryClass false with_col_aliases
  else
    rn_orderby ← rn_orderby_sql;
    modify (λ self, set_extra_select
                      (<["rn" := rn_expr rn_orderby]> (extra_select self)) self);;
    '(sql, params) ← base_as_sql QueryClass false true;
    let result := ["SELECT * FROM (" +:+ sql +:+ ")"] in
    low ← get low_mark;
    l ← lift (format_d low);
    let result := (result ++ ["WHERE rn > " +:+ l])%list in
    high ← get high_mark;
    result ← (if truthy_mark high
              then h ← lift (format_d high);
                   mret (result ++ ["AND rn <= " +:+ h])%list
              else mret result);
    mret (String.concat " " result, params).

Definition set_limits (low high : option Z) : M B unit :=
  base_set_limits QueryClass low high;;
  modify (λ self, set_extra_select (<["rn" := "1"]> (extra_select self)) self).

Definition clear_limits : M B unit :=
  base_clear_limits QueryClass;;
  es ← get extra_select;
  match es !! "rn" with
  | Some _ => modify (set_extra_select (delete "rn" es))
  | None => mret tt
  end.
End OracleQuery.

(** ** The class cache and [query_class] *)

(** The class object built by one execution of the [class OracleQuery]
    statement: its identity, and the two variables its methods close over. *)
Record OracleQueryClass (B : Type) := mkOracleQuery {
  oq_ident : N;
  oq_QueryClass : QueryClassT B;
  oq_Database : DatabaseT }.
Arguments mkOracleQuery {B}.
Arguments oq_ident {B}.
Arguments oq_QueryClass {B}.
Arguments oq_Database {B}.

(** The module's global state: the cache [_classes], keyed by the identity
    of the base class, and the identity the next class object receives. *)
Record module_state (B : Type) := mkModule {
  _classes : gmap N (OracleQueryClass B);
  next_ident : N }.
Arguments mkModule {B}.
Arguments _classes {B}.
Arguments next_ident {B}.

Definition query_class {B} (QueryClass : QueryClassT B) (Database : DatabaseT)
    (g : module_state B) : OracleQueryClass B * module_state B :=
  match _classes g !! qc_ident QueryClass with
  | Some cls => (cls, g)
  | None =>
      let OracleQuery := mkOracleQuery (next_ident g) QueryClass Database in
      (OracleQuery,
       mkModule (<[qc_ident QueryClass := OracleQuery]> (_classes g))
                (next_ident g + 1)%N)
  end.

(** Method lookup on a class object returned by [query_class]. *)
Definition oq_convert_values {B} (typecast_decimal : string → outcome pyvalue)
    (cls : OracleQueryClass B) : pyvalue → option Field → outcome pyvalue :=
  convert_values typecast_decimal (oq_Database cls).

Definition oq_as_sql {B} (cls : OracleQueryClass B)
    : bool → bool → M B (string * list pyvalue) :=
  as_sql (oq_QueryClass cls).

(** A run of calls to [query_class], threading the module state; the result
    is the state after the last call. *)
Definition query_class_calls {B} (calls : list (QueryClassT B * DatabaseT))
    (g : module_state B) : module_state B :=
  fold_left (λ g c, (query_class c.1 c.2 g).2) calls g.

(** ** Histories of limit operations *)

Inductive call :=
| CallSetLimits (low high : option Z)
| CallClearLimits
| CallAsSql (with_limits with_col_aliases : bool).

(** The state a call leaves behind, whether it returns or raises. *)
Definition run_call {B} (QueryClass : QueryClassT B) (c : call) (q : Query B) : Query B :=
  match c with
  | CallSetLimits low high => (set_limits QueryClass low high q).2
  | CallClearLimits => (clear_limits QueryClass q).2
  | CallAsSql with_limits with_col_aliases =>
      (as_sql QueryClass with_limits with_col_aliases q).2
  end.

Definition run_calls {B} (QueryClass : QueryClassT B) (history : list call)
    (q : Query B) : Query B :=
  fold_left (λ q c, run_call QueryClass c q) history q.

(** A row-limiting operation is configured after a history when its latest
    [set_limits] or [clear_limits] call is a [set_limits]. *)
Definition configured_after (configured : bool) (c : call) : bool :=
  match c with
  | CallSetLimits _ _ => true
  | CallClearLimits => false
  | CallAsSql _ _ => configured
  end.

Definition limits_configured (history : list call) : bool :=
  fold_left configured_after history false.

(** ** What is asked of the base class *)

(** [sub] occurs in [s]. *)
Definition contains (sub s : string) : Prop :=
  ∃ pre post, s = pre +:+ sub +:+ post.

Section BaseBehaviour.
Context {B : Type}.

(** A method leaves a part of the state alone, whether it returns or
    raises. *)
Definition keeps {A X} (part : Query B → X) (m : M B A) : Prop :=
  ∀ q, part (m q).2 = part q.

(** The bounds and the model. *)
Definition bounds (q : Query B) : option Z * option Z * Options :=
  (low_mark q, high_mark q, model_meta q).

Definition keeps_bounds {A} (m : M B A) : Prop := keeps bounds m.
Definition keeps_extra_select {A} (m : M B A) : Prop := keeps extra_select m.

Definition returns {A} (m : M B A) : Prop :=
  ∀ q, is_Ok (m q).1 = true.

(** The methods [as_sql] runs before and during SQL generation leave a
    part of the state alone. *)
Record compile_keeps {X} (part : Query B → X) (QueryClass : QueryClassT B)
    : Prop := {
  pre_sql_setup_keeps : keeps part (base_pre_sql_setup QueryClass);
  get_columns_keeps : keeps part (base_get_columns QueryClass);
  get_ordering_keeps : keeps part (base_get_ordering QueryClass);
  quote_name_keeps :
    ∀ name, keeps part (base_quote_name_unless_alias QueryClass name);
  as_sql_keeps : ∀ wl wa, keeps part (base_as_sql QueryClass wl wa) }.

(** They do not touch the bounds or the model ... *)
Definition compile_keeps_bounds (QueryClass : QueryClassT B) : Prop :=
  compile_keeps bounds QueryClass.

(** ... nor [extra_select]. *)
Definition compile_keeps_extra_select (QueryClass : QueryClassT B) : Prop :=
  compile_keeps extra_select QueryClass.

(** The base [set_limits] and [clear_limits] return, and only assign the
    bounds; [clear_limits] leaves no bound set. *)
Record limits_behave (QueryClass : QueryClassT B) : Prop := {
  set_limits_returns : ∀ low high, returns (base_set_limits QueryClass low high);
  set_limits_extra :
    ∀ low high, keeps_extra_select (base_set_limits QueryClass low high);
  clear_limits_returns : returns (base_clear_limits QueryClass);
  clear_limits_extra : keeps_extra_select (base_clear_limits QueryClass);
  clear_limits_clears :
    ∀ q, truthy_mark (low_mark (base_clear_limits QueryClass q).2) = false
         ∧ truthy_mark (high_mark (base_clear_limits QueryClass q).2) = false }.

(** The SQL the base class generates selects every [extra_select]
    expression. *)
Definition emits_extra_select (QueryClass : QueryClassT B) : Prop :=
  ∀ wl wa q sql params q',
    base_as_sql QueryClass wl wa q = (Ok (sql, params), q') →
    ∀ alias e, extra_select q !! alias = Some e → contains e sql.
End BaseBehaviour.

(** ** A reference base class

    A small stand-in for [django.db.models.sql.query.Query], on which the
    statements below are exercised: its state is the list of order-by
    clauses; it quotes names with the double quote and selects every extra
    expression followed by [*]. *)

Definition dq : string := String (Ascii.ascii_of_nat 34) EmptyString.

Definition ref_quote_name (name : string) : string := dq +:+ name +:+ dq.

Definition ref_select (extras : list (string * string)) : string :=
  foldr (λ '(alias, e) rest, "(" +:+ e +:+ ") AS " +:+ alias +:+ ", " +:+ rest)
        "" extras.

Definition ref_as_sql (with_limits with_col_aliases : bool)
    : M (list string) (string * list pyvalue) :=
  λ q,
    (Ok ("SELECT " +:+ ref_select (map_to_list (extra_select q)) +:+ "* FROM "
         +:+ ref_quote_name (db_table (model_meta q)), []), q).

(** Its [set_limits] applies the bounds relative to the current ones and
    clamps them to the high bound, as the base class documents (a low bound
    of [None] counts as 0); its [clear_limits] resets them to [0] and
    [None]. *)
Definition ref_set_limits (low high : option Z) : M (list string) unit :=
  modify (λ q,
    let low0 := default 0 (low_mark q) in
    let high1 :=
      match high with
      | Some h => Some (match high_mark q with
                        | Some h0 => Z.min h0 (low0 + h)
                        | None => low0 + h
                        end)
      | None => high_mark q
      end in
    let low1 :=
      match low with
      | Some l => Some (match high1 with
                        | Some h1 => Z.min h1 (low0 + l)
                        | None => low0 + l
                        end)
      | None => low_mark q
      end in
    set_marks low1 high1 q).

Definition ref_clear_limits : M (list string) unit :=
  modify (set_marks (Some 0) None).

Definition RefQuery : QueryClassT (list string) := {|
  qc_ident := 1;
  base_pre_sql_setup := mret tt;
  base_get_columns := mret ["*"];
  base_get_ordering := get base_state;
  base_quote_name_unless_alias := λ name, mret (ref_quote_name name);
  base_as_sql := ref_as_sql;
  base_set_limits := ref_set_limits;
  base_clear_limits := ref_clear_limits |}.

(** A second base class, distinct from [RefQuery] as an object. *)
Definition RefQuery2 : QueryClassT (list string) := {|
  qc_ident := 2;
  base_pre_sql_setup := mret tt;
  base_get_columns := mret ["*"];
  base_get_ordering := get base_state;
  base_quote_name_unless_alias := λ name, mret (ref_quote_name name);
  base_as_sql := ref_as_sql;
  base_set_limits := ref_set_limits;
  base_clear_limits := ref_clear_limits |}.

(** [DecimalField.format_number] and [util.typecast_decimal] for the
    reference fields, on the values used below: an integer, a boolean or a
    float is rendered with [places] decimal places (['%.*f']; integers
    beyond 2^53, which Python rounds through a float, and decimals are
    outside this stand-in), a calendar value, string or object is a
    [TypeError]; a rendered number is read back as the decimal it denotes,
    the empty string as [None]. *)
Definition fixed_point (places : nat) (negative : bool) (scaled : Z) : string :=
  let one := 10 ^ Z.of_nat places in
  let frac := pretty (scaled mod one) in
  (if negative then "-" else "") +:+ pretty (scaled / one)
  +:+ (if places is O then ""
       else "." +:+ String.concat "" (replicate (places - String.length frac) "0")
            +:+ frac).

Definition round_half_even (num den : Z) : Z :=
  let q := num / den in
  let r := 2 * (num mod den) in
  if (den <? r) || ((r =? den) && Z.odd q) then q + 1 else q.

Definition ref_format_number (places : nat) (value : pyvalue) : outcome string :=
  match value with
  | VInt n => Ok (fixed_point places (n <? 0) (Z.abs n * 10 ^ Z.of_nat places))
  | VBool b => Ok (fixed_point places false (Z.b2z b * 10 ^ Z.of_nat places))
  | VFloat (S754_zero s) => Ok (fixed_point places s 0)
  | VFloat (S754_finite s m e) =>
      Ok (fixed_point places s
            (if 0 <=? e then Z.pos m * 2 ^ e * 10 ^ Z.of_nat places
             else round_half_even (Z.pos m * 10 ^ Z.of_nat places) (2 ^ (- e))))
  | VFloat S754_nan => Ok "nan"
  | VFloat (S754_infinity s) => Ok (if s then "-inf" else "inf")
  | _ => Raise TypeError
  end.

Definition digit_of (a : Ascii.ascii) : option Z :=
  let n := Z.of_nat (Ascii.nat_of_ascii a) in
  if in_range 48 n 57 then Some (n - 48) else None.

(** Reads digits with at most one point: the coefficient so far and the
    number of digits after the point. *)
Fixpoint read_digits (s : string) (coef : Z) (after : option Z) : option (Z * Z) :=
  match s with
  | EmptyString => Some (coef, default 0 after)
  | String a s' =>
      if Ascii.eqb a (Ascii.ascii_of_nat 46) then
        match after with
        | None => read_digits s' coef (Some 0)
        | Some _ => None
        end
      else
        match digit_of a with
        | Some d => read_digits s' (10 * coef + d) (Z.succ <$> after)
        | None => None
        end
  end.

Definition ref_typecast_decimal (s : string) : outcome pyvalue :=
  match s with
  | EmptyString => Ok VNone
  | String a s' =>
      let '(negative, body) :=
        if Ascii.eqb a (Ascii.ascii_of_nat 45) then (true, s') else (false, s) in
      match read_digits body 0 None with
      | Some (coef, places) =>
          Ok (VDecimal (if negative then - coef else coef) (- places))
      | None => Raise (OtherError "InvalidOperation")
      end
  end.

Definition no_format : pyvalue → outcome string := λ _, Raise AttributeError.

Definition id_field : Field := mkField OtherField false None "id" no_format.
Definition name_field : Field := mkField OtherField true None "name" no_format.
Definition flag_field : Field := mkField BooleanField false None "flag" no_format.
Definition time_field : Field := mkField TimeField false None "at" no_format.
Definition price_field : Field :=
  mkField DecimalField false None "price" (ref_format_number 2).

Definition ref_meta : Options := mkOptions "app_item" [id_field; name_field].

(** A fresh query on [ref_meta], as the base constructor leaves it. *)
Definition ref_query : Query (list string) := mkQuery (Some 0) None ∅ ref_meta [].

(** The driver on Python 2.4 and later, and a driver with a timestamp class
    of its own. *)
Definition cx_Oracle : DatabaseT := mkDatabase (ClsDriver "cx_Oracle.LOB") ClsDatetime.
Definition other_driver : DatabaseT :=
  mkDatabase (ClsDriver "other.LOB") (ClsDriver "other.Timestamp").

(** ** The field kinds of the specification

    The specification speaks of boolean-like, datetime-like, date-like and
    time-like fields and reads a timestamp by the field's kind; these are its
    words, to be compared with [convert_values]. *)

Definition boolean_like (field : option Field) : bool :=
  field_isinstance field BooleanField || field_isinstance field NullBooleanField.

Definition decimal_like (field : option Field) : bool :=
  field_isinstance field DecimalField.

Definition timestamp_by_field (dt : datetime) (field : option Field) : pyvalue :=
  if field_isinstance field DateTimeField then VDatetime dt
  else if field_isinstance field DateField then VDate (datetime_date dt)
  else if field_isinstance field TimeField
          || ((year dt =? 1900) && (month dt =? 1) && (day dt =? 1))
  then VTime (datetime_time dt)
  else if (hour dt =? 0) && (minute dt =? 0) && (second dt =? 0)
          && (microsecond dt =? 0)
  then VDate (datetime_date dt)
  else VDatetime dt.

(** ** Auxiliary definitions *)

(** The (value, field) pairs [resolve_columns] converts, in order. *)
Definition resolve_pairs (n : nat) (row : list pyvalue) (fields : list Field)
    : list (pyvalue * option Field) :=
  map (λ v, (v, None)) (take n row) ++ map_None (drop n row) fields.

(** The rewritten statement: the wrapped inner query, the lower filter, and
    the upper filter when the high bound is true as a Python value, joined
    by spaces. *)
Definition paginated (inner : string) (low : Z) (high : option Z) : string :=
  String.concat " "
    (["SELECT * FROM (" +:+ inner +:+ ")"; "WHERE rn > " +:+ pretty low]
     ++ match high with
        | Some h => if h =? 0 then [] else ["AND rn <= " +:+ pretty h]
        | None => []
        end).

(** The state in which the base [as_sql] is called by the rewrite. *)
Definition with_rn {B} (rn_orderby : string) (q : Query B) : Query B :=
  set_extra_select (<["rn" := rn_expr rn_orderby]> (extra_select q)) q.

(** A row bound is set in a state: a high bound is there, or the low bound
    is an integer other than 0 (a cleared query has low bound 0 and no high
    bound). *)
Definition bound_set {B} (q : Query B) : bool :=
  match high_mark q with
  | Some _ => true
  | None => truthy_mark (low_mark q)
  end.

(** What holds of a state and of whether limits are configured. *)
Definition rn_tracks {B} (q : Query B) (configured : bool) : Prop :=
  if configured then is_Some (extra_select q !! "rn")
  else extra_select q !! "rn" = None
       ∧ truthy_mark (low_mark q) = false
       ∧ high_mark q = None.

(** The module before any call to [query_class]. *)
Definition fresh_module : module_state (list string) := mkModule ∅ 0.

(** The reference query with low bound 5 and high bound 15, and what the
    reference base class generates for it. *)
Definition ref_query_5_15 : Query (list string) :=
  set_marks (Some 5) (Some 15) ref_query.

Definition ref_orderby : string :=
  ref_quote_name "app_item" +:+ "." +:+ ref_quote_name "id".

(** Whether the field accepts the empty string; no field does not. *)
Definition accepts_empty (field : option Field) : bool :=
  match field with
  | Some f => empty_strings_allowed f
  | None => false
  end.

(** The cache as [query_class] keeps it: every class is filed under the
    base class it was built from, was numbered before [next_ident], and no
    two entries hold the same class object. *)
Definition cache_wf {B} (g : module_state B) : Prop :=
  ∀ k cls, _classes g !! k = Some cls →
    qc_ident (oq_QueryClass cls) = k
    ∧ (oq_ident cls < next_ident g)%N
    ∧ ∀ k' cls', _classes g !! k' = Some cls' →
        oq_ident cls' = oq_ident cls → k' = k.

(** Reference queries for the edge cases: one with an explicit ordering,
    one whose model has no field, one with an extra-select entry of its
    own. *)
Definition ref_query_ordered : Query (list string) :=
  mkQuery (Some 5) (Some 15) ∅ ref_meta ["name ASC"; "id DESC"].

Definition ref_query_no_fields : Query (list string) :=
  mkQuery (Some 5) None ∅ (mkOptions "app_item" []) [].

Definition ref_query_extra : Query (list string) :=
  set_extra_select {["n" := "COUNT(*)"]} ref_query.

(** * Value conversion *)

Section Conversion.
Context (typecast_decimal : string → outcome pyvalue) (Database : DatabaseT).

Local Abbreviation convert := (convert_values typecast_decimal Database).

Lemma chained_month_day (b : bool) (dt : datetime) :
  b && (month dt =? day dt) && (day dt =? 1)
  = b && (month dt =? 1) && (day dt =? 1).
Proof.
  destruct (Z.eqb_spec (day dt) 1) as [->|]; [done|].
  by rewrite !andb_false_r.
Qed.

Lemma chained_midnight (dt : datetime) :
  (hour dt =? minute dt) && (minute dt =? second dt)
    && (second dt =? microsecond dt) && (microsecond dt =? 0)
  = (hour dt =? 0) && (minute dt =? 0) && (second dt =? 0)
    && (microsecond dt =? 0).
Proof.
  destruct (Z.eqb_spec (microsecond dt) 0) as [->|]; [|by rewrite !andb_false_r].
  destruct (Z.eqb_spec (second dt) 0) as [->|]; [|by rewrite !andb_false_r].
  destruct (Z.eqb_spec (minute dt) 0) as [->|]; [done|].
  by rewrite !andb_false_r.
Qed.

(** A value that converts to a [datetime] is neither [None] nor equal to
    1 or 0. *)
Lemma to_datetime_not_number (value : pyvalue) (dt : datetime) :
  to_datetime value = Ok dt → is_None value = false ∧ in_1_0 value = false.
Proof. by destruct value. Qed.

(** The decimal branch is taken before the timestamp branch. *)
Lemma convert_values_decimal_first (value : pyvalue) (f : Field) :
  isinstance value (LOB Database) = false →
  is_None value = false →
  field_cls f = DecimalField →
  convert value (Some f) = obind (format_number f value) typecast_decimal.
Proof.
  intros Hlob Hnone Hcls. unfold convert_values.
  rewrite Hlob. cbn [obind]. rewrite Hnone. cbn [andb negb].
  unfold field_isinstance. rewrite Hcls. cbn.
  by rewrite andb_false_r.
Qed.

(** C6. At the head of [convert_values]: [None] with a field that accepts
    the empty string becomes the empty string, whatever the field's class;
    the integers 1 and 0 with a boolean-like field become [True] and
    [False]. *)
Theorem convert_values_head (f g : Field) :
  empty_strings_allowed f = true →
  boolean_like (Some g) = true →
  convert VNone (Some f) = Ok (VStr "")
  ∧ convert (VInt 1) (Some g) = Ok (VBool true)
  ∧ convert (VInt 0) (Some g) = Ok (VBool false).
Proof.
  intros Hf Hg. unfold convert_values. cbn [isinstance obind is_None is_Field andb].
  rewrite Hf. split; [done|].
  fold (boolean_like (Some g)). rewrite Hg. by cbn.
Qed.

(** C7 as amended. A driver timestamp that is not a large object and
    normalises to the date-time [dt], with a field that is not a decimal
    field, is read by the field's kind in the order datetime, date, time
    or 1900-01-01, midnight, and otherwise kept. *)
Theorem convert_values_timestamp (value : pyvalue) (field : option Field)
    (dt : datetime) :
  isinstance value (LOB Database) = false →
  isinstance value (Timestamp Database) = true →
  to_datetime value = Ok dt →
  decimal_like field = false →
  convert value field = Ok (timestamp_by_field dt field).
Proof.
  intros Hlob Hts Hdt Hdec. unfold convert_values.
  rewrite Hlob. cbn [obind].
  destruct (to_datetime_not_number _ _ Hdt) as [-> ->]. cbn [andb negb].
  fold (decimal_like field). rewrite Hdec, Hts, Hdt. cbn [obind].
  unfold timestamp_by_field.
  rewrite chained_month_day, chained_midnight.
  by repeat case_match.
Qed.
End Conversion.

(** The two examples of the specification, and a native timestamp of a
    driver with a class of its own. *)
Lemma convert_values_head_witness :
  convert_values ref_typecast_decimal cx_Oracle VNone (Some name_field) = Ok (VStr "")
  ∧ convert_values ref_typecast_decimal cx_Oracle (VInt 1) (Some flag_field)
    = Ok (VBool true)
  ∧ convert_values ref_typecast_decimal cx_Oracle (VInt 0) (Some flag_field)
    = Ok (VBool false).
Proof.
  apply (convert_values_head ref_typecast_decimal cx_Oracle name_field flag_field);
    reflexivity.
Defined.

Lemma convert_values_timestamp_witness :
  convert_values ref_typecast_decimal cx_Oracle
    (VDatetime (mkDatetime 1900 1 1 14 30 0 0)) (Some time_field)
  = Ok (VTime (mkTime 14 30 0 0))
  ∧ convert_values ref_typecast_decimal cx_Oracle
      (VDatetime (mkDatetime 2020 5 1 0 0 0 0)) None
    = Ok (VDate (mkDate 2020 5 1))
  ∧ convert_values ref_typecast_decimal other_driver
      (VTimestamp "other.Timestamp" 2020 5 1 9 15 0 0) (Some id_field)
    = Ok (VDatetime (mkDatetime 2020 5 1 9 15 0 0)).
Proof.
  split; [|split].
  - exact (convert_values_timestamp ref_typecast_decimal cx_Oracle
             (VDatetime (mkDatetime 1900 1 1 14 30 0 0)) (Some time_field)
             (mkDatetime 1900 1 1 14 30 0 0) eq_refl eq_refl eq_refl eq_refl).
  - exact (convert_values_timestamp ref_typecast_decimal cx_Oracle
             (VDatetime (mkDatetime 2020 5 1 0 0 0 0)) None
             (mkDatetime 2020 5 1 0 0 0 0) eq_refl eq_refl eq_refl eq_refl).
  - exact (convert_values_timestamp ref_typecast_decimal other_driver
             (VTimestamp "other.Timestamp" 2020 5 1 9 15 0 0) (Some id_field)
             (mkDatetime 2020 5 1 9 15 0 0) eq_refl eq_refl eq_refl eq_refl).
Defined.

(** C7 as stated fails on a decimal field: the midnight timestamp
    2020-05-01, which the claim reads as a date, goes through the decimal
    branch (line 50), whose number formatting rejects it. *)
Lemma convert_values_timestamp_decimal_field :
  timestamp_by_field (mkDatetime 2020 5 1 0 0 0 0) (Some price_field)
  = VDate (mkDate 2020 5 1)
  ∧ convert_values ref_typecast_decimal cx_Oracle
      (VDatetime (mkDatetime 2020 5 1 0 0 0 0)) (Some price_field)
    = Raise TypeError.
Proof. split; reflexivity. Qed.

(** * Row resolution *)

Section Rows.
Context {A C : Type} (f : A → outcome C).

Lemma each_Forall2 (l : list A) (cs : list C) :
  each f l = Ok cs ↔ Forall2 (λ a c, f a = Ok c) l cs.
Proof.
  revert cs. induction l as [|a l IH]; intros cs; cbn.
  - split.
    + intros [= <-]. constructor.
    + intros ->%Forall2_nil_inv_l. done.
  - destruct (f a) as [c|e] eqn:Hfa; cbn.
    + destruct (each f l) as [cs'|e] eqn:Hl; cbn.
      * split.
        -- intros [= <-]. constructor; [done|]. by apply IH.
        -- intros (c' & cs'' & Hc & Hcs & ->)%Forall2_cons_inv_l.
           apply IH in Hcs. congruence.
      * split; [done|].
        intros (c' & cs'' & Hc & Hcs & ->)%Forall2_cons_inv_l.
        apply IH in Hcs. done.
    + split; [done|].
      intros (c' & cs'' & Hc & _ & ->)%Forall2_cons_inv_l. congruence.
Qed.

Lemma each_app (l1 l2 : list A) :
  each f (l1 ++ l2)
  = obind (each f l1) (λ c1, obind (each f l2) (λ c2, Ok (c1 ++ c2)%list)).
Proof.
  induction l1 as [|a l1 IH]; cbn.
  - by destruct (each f l2).
  - destruct (f a); cbn; [|done]. rewrite IH.
    destruct (each f l1); cbn; [|done]. by destruct (each f l2).
Qed.
End Rows.

Lemma each_map {A A' C} (f : A' → outcome C) (g : A → A') (l : list A) :
  each f (map g l) = each (f ∘ g) l.
Proof. induction l as [|a l IH]; cbn; [done|]. by rewrite IH. Qed.

Lemma length_map_None (xs : list pyvalue) (ys : list Field) :
  length (map_None xs ys) = (length xs `max` length ys)%nat.
Proof.
  revert ys. induction xs as [|x xs IH]; intros ys; cbn.
  - by rewrite length_map.
  - destruct ys as [|y ys]; cbn; rewrite IH; cbn; lia.
Qed.

(** [map(None, xs, ys)] at each position below the longer length: the
    element of [xs] or [None], and the element of [ys] or [None]. *)
Lemma lookup_map_None (xs : list pyvalue) (ys : list Field) (j : nat) :
  (j < length xs `max` length ys)%nat →
  map_None xs ys !! j = Some (default VNone (xs !! j), ys !! j).
Proof.
  revert ys j. induction xs as [|x xs IH]; intros ys j Hj; cbn in *.
  - rewrite list_lookup_fmap.
    destruct (lookup_lt_is_Some_2 ys j Hj) as [y ->]. done.
  - destruct ys as [|y ys], j as [|j]; cbn in *; try done.
    + rewrite IH by (cbn; lia). by destruct j.
    + rewrite IH by lia. done.
Qed.

Lemma each_ext {A C} (f g : A → outcome C) (l : list A) :
  (∀ a, f a = g a) → each f l = each g l.
Proof. intros Hfg. induction l as [|a l IH]; cbn; [done|]. by rewrite Hfg, IH. Qed.

Section ResolveColumns.
Context (typecast_decimal : string → outcome pyvalue) (Database : DatabaseT).
Context {B : Type}.

Local Abbreviation convert := (convert_values typecast_decimal Database).

Lemma resolve_columns_each (self : Query B) (row : list pyvalue)
    (fields : list Field) :
  resolve_columns typecast_decimal Database self row fields
  = each (λ p, convert p.1 p.2)
         (resolve_pairs (size (extra_select self)) row fields).
Proof.
  unfold resolve_columns, resolve_pairs.
  rewrite each_app, each_map.
  rewrite (each_ext (λ p, convert p.1 p.2 : outcome pyvalue)
                    (λ '(value, field), convert value field))
    by (by intros [v fd]).
  done.
Qed.

Lemma length_resolve_pairs (n : nat) (row : list pyvalue) (fields : list Field) :
  length (resolve_pairs n row fields)
  = (n `min` length row + (length row - n) `max` length fields)%nat.
Proof.
  unfold resolve_pairs.
  by rewrite length_app, length_map, length_take, length_map_None, length_drop.
Qed.

Lemma lookup_resolve_pairs_head (n : nat) (row : list pyvalue)
    (fields : list Field) (i : nat) :
  (i < n `min` length row)%nat →
  resolve_pairs n row fields !! i = (λ v, (v, None)) <$> row !! i.
Proof.
  intros Hi. unfold resolve_pairs.
  rewrite lookup_app_l by (rewrite length_map, length_take; lia).
  rewrite list_lookup_fmap, lookup_take_lt by lia. done.
Qed.

Lemma lookup_resolve_pairs_tail (n : nat) (row : list pyvalue)
    (fields : list Field) (j : nat) :
  (j < (length row - n) `max` length fields)%nat →
  resolve_pairs n row fields !! (n `min` length row + j)%nat
  = Some (default VNone (row !! (n + j)%nat), fields !! j).
Proof.
  intros Hj. unfold resolve_pairs.
  rewrite lookup_app_r by (rewrite length_map, length_take; lia).
  rewrite length_map, length_take.
  replace (n `min` length row + j - n `min` length row)%nat with j by lia.
  rewrite lookup_map_None by (rewrite length_drop; lia).
  by rewrite lookup_drop.
Qed.
(** C2 as amended. [resolve_columns] returns [values] exactly when: the
    first [n] values of the row ([n] the number of extra-select keys; all
    of the row when it is shorter) are converted with no field; the
    remaining values and the fields are paired positionally, the shorter
    sequence padded with [None] up to the longer; every conversion returns;
    and [values] holds the results in order. Its length is
    [min n (len row) + max (len row - n) (len fields)]. *)
Theorem resolve_columns_pads (self : Query B) (row : list pyvalue)
    (fields : list Field) (values : list pyvalue) :
  let n := size (extra_select self) in
  let head := (n `min` length row)%nat in
  let tail := ((length row - n) `max` length fields)%nat in
  resolve_columns typecast_decimal Database self row fields = Ok values ↔
    length values = (head + tail)%nat
    ∧ (∀ i, (i < head)%nat →
         ∃ v w, row !! i = Some v ∧ values !! i = Some w
                ∧ convert v None = Ok w)
    ∧ (∀ j, (j < tail)%nat →
         ∃ w, values !! (head + j)%nat = Some w
              ∧ convert (default VNone (row !! (n + j)%nat)) (fields !! j) = Ok w).
Proof.
  intros n head tail. rewrite resolve_columns_each, each_Forall2.
  subst head tail. fold n.
  split.
  - intros HF. pose proof (Forall2_length _ _ _ HF) as Hlen.
    rewrite length_resolve_pairs in Hlen.
    split; [done|]. split.
    + intros i Hi.
      pose proof (lookup_resolve_pairs_head n row fields i Hi) as Hp.
      destruct (lookup_lt_is_Some_2 row i ltac:(lia)) as [v Hv].
      rewrite Hv in Hp. cbn in Hp.
      destruct (Forall2_lookup_l _ _ _ _ _ HF Hp) as (w & Hw & Hc).
      by exists v, w.
    + intros j Hj.
      pose proof (lookup_resolve_pairs_tail n row fields j Hj) as Hp.
      destruct (Forall2_lookup_l _ _ _ _ _ HF Hp) as (w & Hw & Hc).
      by exists w.
  - intros (Hlen & Hhead & Htail).
    apply Forall2_same_length_lookup_2.
    { rewrite length_resolve_pairs. done. }
    intros k p w Hp Hw.
    pose proof (lookup_lt_Some _ _ _ Hw) as Hk. rewrite Hlen in Hk.
    destruct (decide (k < n `min` length row)%nat) as [Hlt|Hge].
    + destruct (Hhead k Hlt) as (v & w' & Hv & Hw' & Hc).
      rewrite lookup_resolve_pairs_head, Hv in Hp by done.
      cbn in Hp. injection Hp as <-. cbn. congruence.
    + destruct (Htail (k - n `min` length row)%nat ltac:(lia))
        as (w' & Hw' & Hc).
      replace (n `min` length row + (k - n `min` length row))%nat
        with k in Hw' by lia.
      replace k with (n `min` length row + (k - n `min` length row))%nat
        in Hp by lia.
      rewrite lookup_resolve_pairs_tail in Hp by lia.
      injection Hp as <-. cbn. congruence.
Qed.
End ResolveColumns.

(** C2 as stated fails: with no extra-select key, a row of one value and two
    fields gives two values (the second converted from [None] with the
    second field), not [0 + min 1 2]; and a row of two values with no field
    gives two values, not [0 + min 2 0]. *)
Lemma resolve_columns_longer_side :
  resolve_columns ref_typecast_decimal cx_Oracle ref_query
    [VInt 7] [id_field; name_field] = Ok [VInt 7; VStr ""]
  ∧ resolve_columns ref_typecast_decimal cx_Oracle ref_query
      [VInt 7; VInt 8] [] = Ok [VInt 7; VInt 8]
  ∧ size (extra_select ref_query) = 0%nat.
Proof. split; [|split]; reflexivity. Qed.

(** * The class cache *)

Section Cache.
Context {B : Type}.
Implicit Types (g : module_state B) (T : QueryClassT B) (D : DatabaseT).
Implicit Types (cls : OracleQueryClass B).

Lemma query_class_cached T D g cls :
  _classes g !! qc_ident T = Some cls → query_class T D g = (cls, g).
Proof. intros H. unfold query_class. by rewrite H. Qed.

Lemma query_class_fresh T D g :
  _classes g !! qc_ident T = None →
  query_class T D g
  = (mkOracleQuery (next_ident g) T D,
     mkModule (<[qc_ident T := mkOracleQuery (next_ident g) T D]> (_classes g))
              (next_ident g + 1)%N).
Proof. intros H. unfold query_class. by rewrite H. Qed.

(** After a call the cache holds the class that was returned. *)
Lemma query_class_stores T D g :
  _classes (query_class T D g).2 !! qc_ident T = Some (query_class T D g).1.
Proof.
  unfold query_class.
  destruct (_classes g !! qc_ident T) as [cls|] eqn:H; cbn; [done|].
  by rewrite lookup_insert_eq.
Qed.

(** An entry is never evicted nor replaced. *)
Lemma query_class_keeps T D g (k : N) cls :
  _classes g !! k = Some cls →
  _classes (query_class T D g).2 !! k = Some cls.
Proof.
  intros Hk. unfold query_class.
  destruct (_classes g !! qc_ident T) as [cls'|] eqn:H; cbn; [done|].
  rewrite lookup_insert_ne; [done|]. congruence.
Qed.

Lemma query_class_calls_keeps (calls : list (QueryClassT B * DatabaseT)) g
    (k : N) cls :
  _classes g !! k = Some cls →
  _classes (query_class_calls calls g) !! k = Some cls.
Proof.
  revert g. induction calls as [|[T D] calls IH]; intros g Hk; [done|].
  cbn. apply IH. by apply query_class_keeps.
Qed.

(** C8. Calling [query_class] twice with the same base class returns the
    identical class object and leaves the cache as the first call left
    it; so does every later call, whatever calls come in between and
    whatever driver module is passed. When the base class was not cached
    yet, the first call builds the class object and stores it. *)
Theorem query_class_twice T D D' D'' g
    (calls : list (QueryClassT B * DatabaseT)) :
  let first := query_class T D g in
  let second := query_class T D' first.2 in
  let later := query_class T D'' (query_class_calls calls second.2) in
  second = first
  ∧ later.1 = first.1
  ∧ _classes first.2 !! qc_ident T = Some first.1
  ∧ (_classes g !! qc_ident T = None →
     first.1 = mkOracleQuery (next_ident g) T D).
Proof.
  intros first second later.
  pose proof (query_class_stores T D g) as Hstored. fold first in Hstored.
  assert (second = first) as Hsecond.
  { subst second. rewrite (query_class_cached _ _ _ _ Hstored).
    by destruct first. }
  split; [done|]. split; [|split; [done|]].
  - subst later. rewrite Hsecond.
    by rewrite (query_class_cached _ _ _ first.1)
      by by apply query_class_calls_keeps.
  - intros Hnew. subst first. by rewrite query_class_fresh.
Qed.

End Cache.


(** * Strings *)

Lemma append_assoc (a b c : string) : (a +:+ b) +:+ c = a +:+ b +:+ c.
Proof.
  induction a as [|x a IH]; [done|].
  change (String x ((a +:+ b) +:+ c) = String x (a +:+ b +:+ c)). by f_equal.
Qed.

Lemma append_nil_r (a : string) : a +:+ "" = a.
Proof.
  induction a as [|x a IH]; [done|].
  change (String x (a +:+ "") = String x a). by f_equal.
Qed.

Lemma contains_here (sub post : string) : contains sub (sub +:+ post).
Proof. by exists "", post. Qed.

Lemma contains_append_l (sub pre s : string) :
  contains sub s → contains sub (pre +:+ s).
Proof.
  intros (p & q & ->). exists (pre +:+ p), q. by rewrite append_assoc.
Qed.

Lemma contains_append_r (sub s post : string) :
  contains sub s → contains sub (s +:+ post).
Proof.
  intros (p & q & ->). exists p, (q +:+ post). by rewrite !append_assoc.
Qed.

Lemma contains_trans (a b c : string) :
  contains a b → contains b c → contains a c.
Proof.
  intros Hab (p & q & ->). by apply contains_append_l, contains_append_r.
Qed.

(** * SQL generation *)

Section Compilation.
Context {B : Type} (QueryClass : QueryClassT B).
Implicit Types (q : Query B).

(** C4. With no bound set ([None], or [0], on both sides), [as_sql]
    called with limits returns what the base [as_sql] returns when called
    with limits disabled and the same aliasing flag, and leaves the same
    state. *)
Theorem as_sql_no_bounds (with_col_aliases : bool) q :
  truthy_mark (high_mark q) = false →
  truthy_mark (low_mark q) = false →
  as_sql QueryClass true with_col_aliases q
  = base_as_sql QueryClass false with_col_aliases q.
Proof.
  intros Hhigh Hlow. unfold as_sql, mbind, M_bind, get. cbn.
  by rewrite Hhigh, Hlow.
Qed.

(** The rewrite, step by step: the order-by text is computed, the base
    class generates the inner query with the [rn] column in place, and the
    bounds read afterwards are inlined. *)
Lemma as_sql_rewrite (with_col_aliases : bool) q (rn_orderby : string) q1
    (inner : string) (params : list pyvalue) q2 (low : Z) :
  truthy_mark (high_mark q) || truthy_mark (low_mark q) = true →
  rn_orderby_sql QueryClass q = (Ok rn_orderby, q1) →
  base_as_sql QueryClass false true (with_rn rn_orderby q1)
    = (Ok (inner, params), q2) →
  low_mark q2 = Some low →
  as_sql QueryClass true with_col_aliases q
  = (Ok (paginated inner low (high_mark q2), params), q2).
Proof.
  intros Hdo Hrn Hbase Hlow. unfold as_sql, mbind, M_bind, get. cbn.
  rewrite Hdo. cbn. rewrite Hrn. unfold modify. fold (with_rn rn_orderby q1).
  rewrite Hbase. unfold lift, mret, M_ret. rewrite Hlow. cbn.
  unfold paginated.
  destruct (high_mark q2) as [h|]; cbn; [|done].
  by destruct (h =? 0).
Qed.

Lemma paginated_both (inner : string) (low h : Z) :
  h ≠ 0 →
  paginated inner low (Some h)
  = "SELECT * FROM (" +:+ inner +:+ ") WHERE rn > " +:+ pretty low
    +:+ " AND rn <= " +:+ pretty h.
Proof.
  intros Hh%Z.eqb_neq. unfold paginated. rewrite Hh.
  cbn [app String.concat]. by rewrite !append_assoc.
Qed.

Lemma paginated_low_only (inner : string) (low : Z) (high : option Z) :
  truthy_mark high = false →
  paginated inner low high
  = "SELECT * FROM (" +:+ inner +:+ ") WHERE rn > " +:+ pretty low.
Proof.
  intros Hhigh. unfold paginated.
  assert (match high with
          | Some h => if h =? 0 then [] else ["AND rn <= " +:+ pretty h]
          | None => []
          end = []) as ->.
  { destruct high as [h|]; [|done]. cbn in Hhigh. by destruct (h =? 0). }
  cbn [app String.concat]. by rewrite !append_assoc.
Qed.

(** Parts of the state through the steps of the rewrite. *)
Lemma keeps_run {A X} (part : Query B → X) (m : M B A) q (r : outcome A) q' :
  keeps part m → m q = (r, q') → part q' = part q.
Proof. intros Hm Hq. specialize (Hm q). by rewrite Hq in Hm. Qed.

Lemma keeps_bounds_run {A} (m : M B A) q (r : outcome A) q' :
  keeps_bounds m → m q = (r, q') →
  low_mark q' = low_mark q ∧ high_mark q' = high_mark q
  ∧ model_meta q' = model_meta q.
Proof.
  intros Hm Hq. pose proof (keeps_run _ _ _ _ _ Hm Hq) as Hb.
  by injection Hb.
Qed.

Lemma keeps_bind {A C X} (part : Query B → X) (m : M B A) (k : A → M B C) :
  keeps part m → (∀ a, keeps part (k a)) → keeps part (m ≫= k).
Proof.
  intros Hm Hk q. unfold mbind, M_bind.
  destruct (m q) as [[a|e] q1] eqn:Hq; cbn.
  - rewrite <- (keeps_run _ _ _ _ _ Hm Hq). apply Hk.
  - apply (keeps_run _ _ _ _ _ Hm Hq).
Qed.

Lemma keeps_lift {A X} (part : Query B → X) (x : outcome A) :
  keeps part (lift x).
Proof. by intros q. Qed.

Lemma keeps_get {A X} (part : Query B → X) (f : Query B → A) :
  keeps part (get f).
Proof. by intros q. Qed.

Lemma keeps_modify {X} (part : Query B → X) (f : Query B → Query B) :
  (∀ q, part (f q) = part q) → keeps part (modify f).
Proof. intros Hf q. apply Hf. Qed.

Lemma rn_orderby_sql_keeps {X} (part : Query B → X) :
  compile_keeps part QueryClass → keeps part (rn_orderby_sql QueryClass).
Proof.
  intros [Hpre Hcols Hord Hqn Hsql]. unfold rn_orderby_sql.
  apply keeps_bind; [done|]. intros _.
  apply keeps_bind; [done|]. intros cols.
  apply keeps_bind; [done|]. intros [|o os].
  - unfold default_orderby.
    apply keeps_bind; [apply keeps_get|]. intros opts.
    apply keeps_bind; [done|]. intros t.
    apply keeps_bind; [apply keeps_lift|]. intros f0.
    apply keeps_bind; [done|]. intros c.
    apply (keeps_lift _ (Ok _)).
  - apply (keeps_lift _ (Ok _)).
Qed.

(** The order-by text when [get_ordering] is empty: the quoted table name
    and the quoted column of the first field. *)
Lemma rn_orderby_sql_default q q1 (cols : list string) q2 q3
    (f0 : Field) (fs : list Field) (t : string) q4 (c : string) q5 :
  base_pre_sql_setup QueryClass q = (Ok tt, q1) →
  base_get_columns QueryClass q1 = (Ok cols, q2) →
  base_get_ordering QueryClass q2 = (Ok [], q3) →
  fields (model_meta q3) = f0 :: fs →
  base_quote_name_unless_alias QueryClass (db_table (model_meta q3)) q3
    = (Ok t, q4) →
  base_quote_name_unless_alias QueryClass
    (or_else (db_column f0) (column f0)) q4 = (Ok c, q5) →
  rn_orderby_sql QueryClass q = (Ok (t +:+ "." +:+ c), q5).
Proof.
  intros Hpre Hcols Hord Hfields Ht Hc.
  unfold rn_orderby_sql, default_orderby, mbind, M_bind, get, lift.
  rewrite Hpre, Hcols, Hord. cbn. rewrite Ht, Hfields, Hc. done.
Qed.

(** ... and when it is not: its clauses joined by a comma. *)
Lemma rn_orderby_sql_ordering q q1 (cols : list string) q2
    (o : string) (os : list string) q3 :
  base_pre_sql_setup QueryClass q = (Ok tt, q1) →
  base_get_columns QueryClass q1 = (Ok cols, q2) →
  base_get_ordering QueryClass q2 = (Ok (o :: os), q3) →
  rn_orderby_sql QueryClass q = (Ok (String.concat ", " (o :: os)), q3).
Proof.
  intros Hpre Hcols Hord.
  unfold rn_orderby_sql, mbind, M_bind.
  by rewrite Hpre, Hcols, Hord.
Qed.
(** C1. With low bound 5, high bound 15 and an empty [get_ordering], on a
    model with a first field, over a base class whose compilation methods
    leave bounds and model alone and whose SQL selects the extra
    expressions: [as_sql] hands the base class the [rn] column
    [ROW_NUMBER() OVER (ORDER BY <table>.<column> )], built from the quoted
    table name and the quoted column of the first field, wraps the SQL it
    gets back and filters [rn > 5 AND rn <= 15]; the window expression
    occurs in the result. *)
Theorem as_sql_default_ordering (with_col_aliases : bool) q q1
    (cols : list string) q2 q3 (f0 : Field) (fs : list Field)
    (t : string) q4 (c : string) q5 (inner : string)
    (params : list pyvalue) q6 :
  compile_keeps_bounds QueryClass →
  emits_extra_select QueryClass →
  low_mark q = Some 5 →
  high_mark q = Some 15 →
  fields (model_meta q) = f0 :: fs →
  base_pre_sql_setup QueryClass q = (Ok tt, q1) →
  base_get_columns QueryClass q1 = (Ok cols, q2) →
  base_get_ordering QueryClass q2 = (Ok [], q3) →
  base_quote_name_unless_alias QueryClass (db_table (model_meta q)) q3
    = (Ok t, q4) →
  base_quote_name_unless_alias QueryClass
    (or_else (db_column f0) (column f0)) q4 = (Ok c, q5) →
  base_as_sql QueryClass false true (with_rn (t +:+ "." +:+ c) q5)
    = (Ok (inner, params), q6) →
  extra_select (with_rn (t +:+ "." +:+ c) q5) !! "rn"
    = Some ("ROW_NUMBER() OVER (ORDER BY " +:+ (t +:+ "." +:+ c) +:+ " )")
  ∧ as_sql QueryClass true with_col_aliases q
    = (Ok ("SELECT * FROM (" +:+ inner
           +:+ ") WHERE rn > 5 AND rn <= 15", params), q6)
  ∧ contains ("ROW_NUMBER() OVER (ORDER BY " +:+ (t +:+ "." +:+ c) +:+ " )")
      ("SELECT * FROM (" +:+ inner +:+ ") WHERE rn > 5 AND rn <= 15").
Proof.
  intros Hkeep Hemit Hlow Hhigh Hfields Hpre Hcols Hord Ht Hc Hbase.
  pose proof Hkeep as [Kpre Kcols Kord Kqn Ksql].
  destruct (keeps_bounds_run _ _ _ _ Kpre Hpre) as (_ & _ & M1).
  destruct (keeps_bounds_run _ _ _ _ Kcols Hcols) as (_ & _ & M2).
  destruct (keeps_bounds_run _ _ _ _ Kord Hord) as (_ & _ & M3).
  assert (model_meta q3 = model_meta q) as Hmeta by congruence.
  assert (rn_orderby_sql QueryClass q = (Ok (t +:+ "." +:+ c), q5)) as Hrn.
  { eapply rn_orderby_sql_default; try done; rewrite Hmeta; done. }
  destruct (keeps_bounds_run _ _ _ _ (rn_orderby_sql_keeps _ Hkeep) Hrn)
    as (L5 & H5 & _).
  destruct (keeps_bounds_run _ _ _ _ (Ksql false true) Hbase) as (L6 & H6 & _).
  cbn in L6, H6. rewrite L5, Hlow in L6. rewrite H5, Hhigh in H6.
  assert (extra_select (with_rn (t +:+ "." +:+ c) q5) !! "rn"
          = Some (rn_expr (t +:+ "." +:+ c))) as Hentry.
  { unfold with_rn. cbn. apply lookup_insert_eq. }
  split; [exact Hentry|]. split.
  - rewrite (as_sql_rewrite with_col_aliases q (t +:+ "." +:+ c) q5 inner
               params q6 5);
      [|by rewrite Hhigh|done|done|done].
    rewrite H6, paginated_both by done. done.
  - apply contains_append_l, contains_append_r.
    exact (Hemit _ _ _ _ _ _ Hbase _ _ Hentry).
Qed.

(** X17. Over a base class whose compilation methods leave the bounds
    alone, whenever the rewrite runs and the base calls return, [as_sql]
    filters [rn > low], and appends [AND rn <= high] exactly when line 129
    finds the high bound true, that is an integer other than 0; with low
    bound 5 and no high bound the filter is [WHERE rn > 5] and nothing
    follows it. *)
Theorem as_sql_upper_filter (with_col_aliases : bool) q (low : Z)
    (rn_orderby : string) q1 (inner : string) (params : list pyvalue) q2 :
  compile_keeps_bounds QueryClass →
  low_mark q = Some low →
  truthy_mark (high_mark q) || truthy_mark (Some low) = true →
  rn_orderby_sql QueryClass q = (Ok rn_orderby, q1) →
  base_as_sql QueryClass false true (with_rn rn_orderby q1)
    = (Ok (inner, params), q2) →
  as_sql QueryClass true with_col_aliases q
  = (Ok ("SELECT * FROM (" +:+ inner +:+ ") WHERE rn > " +:+ pretty low
         +:+ match high_mark q with
             | Some h => if h =? 0 then "" else " AND rn <= " +:+ pretty h
             | None => ""
             end, params), q2).
Proof.
  intros Hkeep Hlow Hdo Hrn Hbase.
  destruct (keeps_bounds_run _ _ _ _ (rn_orderby_sql_keeps _ Hkeep) Hrn)
    as (L1 & H1 & _).
  destruct (keeps_bounds_run _ _ _ _ (as_sql_keeps _ _ Hkeep false true) Hbase)
    as (L2 & H2 & _).
  cbn in L2, H2. rewrite L1, Hlow in L2. rewrite H1 in H2.
  rewrite (as_sql_rewrite with_col_aliases q rn_orderby q1 inner params q2
             low);
    [|by rewrite Hlow|done|done|done].
  rewrite H2. do 2 f_equal. f_equal.
  destruct (high_mark q) as [h|].
  - destruct (Z.eqb_spec h 0) as [->|Hh].
    + by rewrite paginated_low_only, !append_nil_r.
    + by rewrite paginated_both.
  - by rewrite paginated_low_only, !append_nil_r.
Qed.

(** C5, at the input where the code departs from it. With a high bound of
    0 (a limit of no row) and no offset, line 92 finds no bound: [as_sql]
    called with limits is the base [as_sql] with limits disabled, so no
    rewrite runs and no [AND rn <= 0] is emitted. *)
Theorem as_sql_high_mark_zero (with_col_aliases : bool) q :
  high_mark q = Some 0 →
  truthy_mark (low_mark q) = false →
  as_sql QueryClass true with_col_aliases q
  = base_as_sql QueryClass false with_col_aliases q.
Proof.
  intros Hhigh Hlow. unfold as_sql, mbind, M_bind, get. cbn.
  by rewrite Hhigh, Hlow.
Qed.

(** C9. [as_sql] called with limits returns a statement and parameters
    exactly when the base calls return, and the parameters are then those
    of the base [as_sql] call, unchanged: when a bound is set, those of the
    inner call made with the [rn] column in place, the bounds appearing in
    the statement only; otherwise those of the delegated call. *)
Theorem as_sql_params (with_col_aliases : bool) q (sql : string)
    (params : list pyvalue) q' :
  as_sql QueryClass true with_col_aliases q = (Ok (sql, params), q') ↔
  if truthy_mark (high_mark q) || truthy_mark (low_mark q)
  then ∃ rn_orderby q1 inner low,
         rn_orderby_sql QueryClass q = (Ok rn_orderby, q1)
         ∧ base_as_sql QueryClass false true (with_rn rn_orderby q1)
           = (Ok (inner, params), q')
         ∧ low_mark q' = Some low
         ∧ sql = paginated inner low (high_mark q')
  else base_as_sql QueryClass false with_col_aliases q = (Ok (sql, params), q').
Proof.
  destruct (truthy_mark (high_mark q) || truthy_mark (low_mark q)) eqn:Hdo.
  2:{ unfold as_sql, mbind, M_bind, get. cbn. by rewrite Hdo. }
  split.
  - unfold as_sql, mbind, M_bind, get. cbn. rewrite Hdo. cbn.
    destruct (rn_orderby_sql QueryClass q) as [[rn|e] q1] eqn:Hrn; [|done].
    unfold modify. fold (with_rn rn q1).
    destruct (base_as_sql QueryClass false true (with_rn rn q1))
      as [[[inner ps]|e] q2] eqn:Hbase; [|done].
    unfold lift, mret, M_ret.
    destruct (low_mark q2) as [low|] eqn:Hlow; cbn; [|done].
    intros Hres. exists rn, q1, inner, low.
    assert (q2 = q' ∧ ps = params ∧ sql = paginated inner low (high_mark q2))
      as (-> & -> & ->).
    { unfold paginated. destruct (high_mark q2) as [h|]; cbn in Hres.
      - destruct (h =? 0); cbn in Hres; by simplify_eq.
      - by simplify_eq. }
    done.
  - intros (rn & q1 & inner & low & Hrn & Hbase & Hlow & ->).
    by apply (as_sql_rewrite with_col_aliases q rn q1).
Qed.
End Compilation.

(** ** The reference base class behaves *)

Lemma RefQuery_keeps_bounds : compile_keeps_bounds RefQuery.
Proof. by split. Qed.

Lemma RefQuery_keeps_extra_select : compile_keeps_extra_select RefQuery.
Proof. by split. Qed.

Lemma RefQuery_limits_behave : limits_behave RefQuery.
Proof. by split. Qed.

Lemma ref_select_contains (extras : list (string * string)) (alias e : string) :
  (alias, e) ∈ extras → contains e (ref_select extras).
Proof.
  induction extras as [|[k x] extras IH]; [by intros ?%elem_of_nil|].
  intros [[= <- <-]|Hin]%elem_of_cons; cbn [ref_select foldr].
  - apply (contains_append_l _ "("), contains_here.
  - fold (ref_select extras).
    rewrite <- !append_assoc. by apply contains_append_l, IH.
Qed.

Lemma RefQuery_emits_extra_select : emits_extra_select RefQuery.
Proof.
  intros wl wa q sql params q' [= <- _ _] alias e Hin.
  apply (contains_append_l _ "SELECT "), contains_append_r.
  by apply (ref_select_contains _ alias), elem_of_map_to_list.
Qed.

Lemma as_sql_default_ordering_witness :
  let q' := with_rn ref_orderby ref_query_5_15 in
  let inner := "SELECT (ROW_NUMBER() OVER (ORDER BY " +:+ ref_orderby
               +:+ " )) AS rn, * FROM " +:+ ref_quote_name "app_item" in
  extra_select q' !! "rn"
    = Some ("ROW_NUMBER() OVER (ORDER BY " +:+ ref_orderby +:+ " )")
  ∧ as_sql RefQuery true false ref_query_5_15
    = (Ok ("SELECT * FROM (" +:+ inner +:+ ") WHERE rn > 5 AND rn <= 15", []), q')
  ∧ contains ("ROW_NUMBER() OVER (ORDER BY " +:+ ref_orderby +:+ " )")
      ("SELECT * FROM (" +:+ inner +:+ ") WHERE rn > 5 AND rn <= 15").
Proof.
  exact (as_sql_default_ordering RefQuery false ref_query_5_15 ref_query_5_15
           ["*"] ref_query_5_15 ref_query_5_15 id_field [name_field]
           (ref_quote_name "app_item") ref_query_5_15 (ref_quote_name "id")
           ref_query_5_15 _ [] _
           RefQuery_keeps_bounds RefQuery_emits_extra_select
           eq_refl eq_refl eq_refl eq_refl eq_refl eq_refl eq_refl eq_refl
           eq_refl).
Defined.

Lemma as_sql_no_bounds_witness :
  as_sql RefQuery true true ref_query = base_as_sql RefQuery false true ref_query
  ∧ as_sql RefQuery true true (set_marks None None ref_query)
    = base_as_sql RefQuery false true (set_marks None None ref_query).
Proof.
  split.
  - exact (as_sql_no_bounds RefQuery true ref_query eq_refl eq_refl).
  - exact (as_sql_no_bounds RefQuery true (set_marks None None ref_query)
             eq_refl eq_refl).
Defined.

(** Low bound 5 alone: nothing follows [WHERE rn > 5]. *)
Lemma as_sql_upper_filter_witness :
  let q := set_marks (Some 5) None ref_query in
  let inner := "SELECT (ROW_NUMBER() OVER (ORDER BY " +:+ ref_orderby
               +:+ " )) AS rn, * FROM " +:+ ref_quote_name "app_item" in
  as_sql RefQuery true false q
  = (Ok ("SELECT * FROM (" +:+ inner +:+ ") WHERE rn > 5" +:+ "", []),
     with_rn ref_orderby q).
Proof.
  exact (as_sql_upper_filter RefQuery false (set_marks (Some 5) None ref_query)
           5 ref_orderby (set_marks (Some 5) None ref_query) _ [] _
           RefQuery_keeps_bounds eq_refl eq_refl eq_refl eq_refl).
Defined.

(** The slice [[:0]]: [set_limits(None, 0)] on a fresh query leaves low
    bound 0 and high bound 0, and the statement generated with limits is
    the unlimited one, with the placeholder as its [rn] column. *)
Lemma as_sql_high_mark_zero_witness :
  let q := run_call RefQuery (CallSetLimits None (Some 0)) ref_query in
  low_mark q = Some 0
  ∧ high_mark q = Some 0
  ∧ as_sql RefQuery true false q = base_as_sql RefQuery false false q
  ∧ (as_sql RefQuery true false q).1
    = Ok ("SELECT (1) AS rn, * FROM " +:+ ref_quote_name "app_item", []).
Proof.
  intros q. split; [reflexivity|]. split; [reflexivity|].
  split; [|reflexivity].
  exact (as_sql_high_mark_zero RefQuery false q eq_refl eq_refl).
Defined.

Lemma as_sql_params_witness :
  ∃ sql q', as_sql RefQuery true false ref_query_5_15 = (Ok (sql, []), q').
Proof.
  eexists _, _.
  apply (as_sql_params RefQuery false ref_query_5_15 _ [] _).
  exists ref_orderby, ref_query_5_15. eexists _, 5.
  repeat split.
Defined.

(** * The [rn] entry of [extra_select] *)

Section Limits.
Context {B : Type} (QueryClass : QueryClassT B).
Implicit Types (q : Query B).

Lemma returns_run (m : M B unit) q :
  returns m → m q = (Ok tt, (m q).2).
Proof.
  intros Hm. specialize (Hm q).
  by destruct (m q) as [[[]|e] q'].
Qed.

(** [set_limits] leaves the placeholder behind. *)
Lemma set_limits_run (low high : option Z) q :
  limits_behave QueryClass →
  ∃ q1, set_limits QueryClass low high q
        = (Ok tt, set_extra_select (<["rn" := "1"]> (extra_select q)) q1).
Proof.
  intros Hbase. unfold set_limits, mbind, M_bind, modify.
  rewrite (returns_run _ q (set_limits_returns _ Hbase low high)).
  rewrite <- (set_limits_extra _ Hbase low high q). by eexists.
Qed.

(** [clear_limits] removes the entry, leaves the other entries alone and
    leaves no bound set. *)
Lemma clear_limits_run q :
  limits_behave QueryClass →
  let q' := (clear_limits QueryClass q).2 in
  extra_select q' = delete "rn" (extra_select q)
  ∧ truthy_mark (low_mark q') = false
  ∧ truthy_mark (high_mark q') = false.
Proof.
  intros Hbase. unfold clear_limits, mbind, M_bind, get, modify.
  rewrite (returns_run _ q (clear_limits_returns _ Hbase)).
  destruct (clear_limits_clears _ Hbase q) as [Hlow Hhigh].
  rewrite <- (clear_limits_extra _ Hbase q).
  destruct (extra_select (base_clear_limits QueryClass q).2 !! "rn")
    as [e|] eqn:Hrn; cbn.
  - done.
  - by rewrite delete_id.
Qed.

(** Without a true bound, or without limits, [as_sql] is the base
    [as_sql]. *)
Lemma as_sql_plain (with_limits with_col_aliases : bool) q :
  with_limits && (truthy_mark (high_mark q) || truthy_mark (low_mark q)) = false →
  as_sql QueryClass with_limits with_col_aliases q
  = base_as_sql QueryClass false with_col_aliases q.
Proof.
  intros Hdo. unfold as_sql, mbind, M_bind, get. cbn. by rewrite Hdo.
Qed.

Lemma as_sql_keeps_bounds (with_limits with_col_aliases : bool) :
  compile_keeps_bounds QueryClass →
  keeps bounds (as_sql QueryClass with_limits with_col_aliases).
Proof.
  intros Hkeep. unfold as_sql.
  apply keeps_bind; [apply keeps_get|]. intros high.
  apply keeps_bind; [apply keeps_get|]. intros low.
  destruct (negb _); [apply (as_sql_keeps _ _ Hkeep)|].
  apply keeps_bind; [by apply rn_orderby_sql_keeps|]. intros rn.
  apply keeps_bind; [by apply keeps_modify|]. intros _.
  apply keeps_bind; [apply (as_sql_keeps _ _ Hkeep)|]. intros [sql params].
  apply keeps_bind; [apply keeps_get|]. intros low'.
  apply keeps_bind; [apply keeps_lift|]. intros l.
  apply keeps_bind; [apply keeps_get|]. intros high'.
  apply keeps_bind; [|intros; apply (keeps_lift _ (Ok _))].
  destruct (truthy_mark high'); [|apply (keeps_lift _ (Ok _))].
  apply keeps_bind; [apply keeps_lift|]. intros h.
  apply (keeps_lift _ (Ok _)).
Qed.

(** [as_sql] leaves [extra_select] alone or sets its [rn] entry to a
    [ROW_NUMBER()] expression. *)
Lemma as_sql_extra_select (with_limits with_col_aliases : bool) q :
  compile_keeps_extra_select QueryClass →
  let es' := extra_select (as_sql QueryClass with_limits with_col_aliases q).2 in
  es' = extra_select q
  ∨ ∃ rn_orderby, es' = <["rn" := rn_expr rn_orderby]> (extra_select q).
Proof.
  intros Hkeep es'. subst es'.
  destruct (with_limits
            && (truthy_mark (high_mark q) || truthy_mark (low_mark q)))
    eqn:Hdo.
  - unfold as_sql, mbind, M_bind, get. cbn. rewrite Hdo. cbn.
    pose proof (rn_orderby_sql_keeps QueryClass _ Hkeep q) as Hq1.
    destruct (rn_orderby_sql QueryClass q) as [[rn|e] q1]; cbn in Hq1;
      [|by left].
    right. exists rn. unfold modify.
    pose proof (as_sql_keeps _ _ Hkeep false true
                  (set_extra_select (<["rn" := rn_expr rn]> (extra_select q1)) q1))
      as Hq2.
    destruct (base_as_sql QueryClass false true _) as [[[sql params]|e] q2];
      cbn in Hq2; rewrite Hq1 in Hq2; [|done].
    unfold lift, mret, M_ret.
    destruct (low_mark q2); cbn; [|done].
    destruct (truthy_mark (high_mark q2)); cbn; [|done].
    by destruct (high_mark q2).
  - left. rewrite as_sql_plain by done.
    apply (as_sql_keeps _ _ Hkeep).
Qed.

Lemma run_call_tracks (c : call) q (configured : bool) :
  limits_behave QueryClass →
  (∀ q, high_mark (base_clear_limits QueryClass q).2 = None) →
  compile_keeps_bounds QueryClass →
  compile_keeps_extra_select QueryClass →
  rn_tracks q configured →
  rn_tracks (run_call QueryClass c q) (configured_after configured c).
Proof.
  intros Hlim Hclear Hbounds Hextra Hq.
  destruct c as [low high| |with_limits with_col_aliases]; cbn.
  - destruct (set_limits_run low high q Hlim) as [q1 ->]. cbn.
    rewrite lookup_insert_eq. by eexists.
  - destruct (clear_limits_run q Hlim) as (Hes & Hlow & _).
    rewrite Hes, lookup_delete_eq. split; [done|]. split; [done|].
    pose proof (Hclear q) as Hnone.
    unfold clear_limits, mbind, M_bind, get, modify.
    destruct (base_clear_limits QueryClass q) as [[[]|e] q1]; cbn in *;
      [|done].
    by destruct (extra_select q1 !! "rn").
  - destruct configured; cbn in *.
    + destruct (as_sql_extra_select with_limits with_col_aliases q Hextra)
        as [->|[rn ->]]; [done|].
      rewrite lookup_insert_eq. by eexists.
    + destruct Hq as (Hrn & Hlow & Hhigh).
      pose proof (as_sql_keeps_bounds with_limits with_col_aliases Hbounds q)
        as Hb.
      injection Hb as -> -> _.
      rewrite as_sql_plain by (by rewrite Hlow, Hhigh, andb_false_r).
      by rewrite (as_sql_keeps _ _ Hextra).
Qed.

Lemma run_calls_tracks (history : list call) q (configured : bool) :
  limits_behave QueryClass →
  (∀ q, high_mark (base_clear_limits QueryClass q).2 = None) →
  compile_keeps_bounds QueryClass →
  compile_keeps_extra_select QueryClass →
  rn_tracks q configured →
  rn_tracks (run_calls QueryClass history q)
            (fold_left configured_after history configured).
Proof.
  intros Hlim Hclear Hbounds Hextra. revert q configured.
  induction history as [|c history IH]; intros q configured Hq; [done|].
  cbn. apply IH. by apply run_call_tracks.
Qed.

(** What [as_sql] leaves in [extra_select]: the [ROW_NUMBER()] expression
    over the order-by text when the rewrite runs and that text was
    computed, and the map as it was otherwise. *)
Lemma as_sql_extra_select_exact (with_limits with_col_aliases : bool) q :
  compile_keeps_extra_select QueryClass →
  extra_select (as_sql QueryClass with_limits with_col_aliases q).2
  = if with_limits && (truthy_mark (high_mark q) || truthy_mark (low_mark q))
    then match (rn_orderby_sql QueryClass q).1 with
         | Ok rn_orderby =>
             <["rn" := "ROW_NUMBER() OVER (ORDER BY " +:+ rn_orderby +:+ " )"]>
               (extra_select q)
         | Raise _ => extra_select q
         end
    else extra_select q.
Proof.
  intros Hkeep.
  destruct (with_limits
            && (truthy_mark (high_mark q) || truthy_mark (low_mark q)))
    eqn:Hdo.
  - unfold as_sql, mbind, M_bind, get. cbn. rewrite Hdo. cbn.
    pose proof (rn_orderby_sql_keeps QueryClass _ Hkeep q) as Hq1.
    destruct (rn_orderby_sql QueryClass q) as [[rn|e] q1]; cbn in Hq1;
      [|done].
    cbn [fst]. unfold modify.
    pose proof (as_sql_keeps _ _ Hkeep false true
                  (set_extra_select (<["rn" := rn_expr rn]> (extra_select q1)) q1))
      as Hq2.
    destruct (base_as_sql QueryClass false true _) as [[[sql params]|e] q2];
      cbn in Hq2; rewrite Hq1 in Hq2; [|done].
    unfold lift, mret, M_ret.
    destruct (low_mark q2); cbn; [|done].
    destruct (truthy_mark (high_mark q2)); cbn; [|done].
    by destruct (high_mark q2).
  - rewrite as_sql_plain by done.
    apply (as_sql_keeps _ _ Hkeep).
Qed.

(** C3 as amended. Over a base class whose [set_limits] and [clear_limits]
    return and only assign the bounds ([clear_limits] leaving no high bound
    and no offset) and whose compilation methods leave bounds and
    [extra_select] alone: in every state reached from a fresh query (no
    [rn] entry, no bound set) by calls to [set_limits], [clear_limits] and
    [as_sql], the key [rn] is in [extra_select] whenever a bound is set, and
    exactly when the latest [set_limits] or [clear_limits] call was a
    [set_limits], with or without a bound. [set_limits] writes the
    placeholder ['1'], [clear_limits] deletes the entry (nothing changes
    when it is absent), and [as_sql] writes
    [ROW_NUMBER() OVER (ORDER BY <order-by> )] when the rewrite runs and
    leaves the map alone otherwise. *)
Theorem rn_present_when_bound_set (history : list call) q0 :
  limits_behave QueryClass →
  (∀ q, high_mark (base_clear_limits QueryClass q).2 = None) →
  compile_keeps_bounds QueryClass →
  compile_keeps_extra_select QueryClass →
  extra_select q0 !! "rn" = None →
  bound_set q0 = false →
  let q := run_calls QueryClass history q0 in
  (bound_set q = true → is_Some (extra_select q !! "rn"))
  ∧ (is_Some (extra_select q !! "rn") ↔ limits_configured history = true)
  ∧ (∀ low high,
       extra_select (set_limits QueryClass low high q).2 !! "rn" = Some "1")
  ∧ extra_select (clear_limits QueryClass q).2 = delete "rn" (extra_select q)
  ∧ (∀ with_limits with_col_aliases,
       extra_select (as_sql QueryClass with_limits with_col_aliases q).2
       = if with_limits
            && (truthy_mark (high_mark q) || truthy_mark (low_mark q))
         then match (rn_orderby_sql QueryClass q).1 with
              | Ok rn_orderby =>
                  <["rn" := "ROW_NUMBER() OVER (ORDER BY " +:+ rn_orderby
                            +:+ " )"]> (extra_select q)
              | Raise _ => extra_select q
              end
         else extra_select q).
Proof.
  intros Hlim Hclear Hbounds Hextra Hrn Hunset q.
  assert (rn_tracks q (limits_configured history)) as Hq.
  { apply run_calls_tracks; try done. unfold bound_set in Hunset. cbn.
    by destruct (high_mark q0). }
  split; [|split; [|split; [|split]]].
  - intros Hset. destruct (limits_configured history); [done|].
    destruct Hq as (_ & Hl & Hh). unfold bound_set in Hset.
    by rewrite Hh, Hl in Hset.
  - split.
    + intros Hsome. destruct (limits_configured history); [done|].
      destruct Hq as [Hnone _]. rewrite Hnone in Hsome. by destruct Hsome.
    + intros Hconf. by rewrite Hconf in Hq.
  - intros low high. destruct (set_limits_run low high q Hlim) as [q1 ->].
    apply lookup_insert_eq.
  - by destruct (clear_limits_run q Hlim) as [-> _].
  - intros with_limits with_col_aliases.
    by apply as_sql_extra_select_exact.
Qed.
End Limits.

Lemma RefQuery_clear_limits_high (q : Query (list string)) :
  high_mark (base_clear_limits RefQuery q).2 = None.
Proof. done. Qed.

(** A slice, its compilation, and the limits cleared again. *)
Lemma rn_present_when_bound_set_witness :
  let sliced := [CallSetLimits (Some 5) (Some 15); CallAsSql true false] in
  let cleared := (sliced ++ [CallClearLimits; CallAsSql true false])%list in
  (bound_set (run_calls RefQuery sliced ref_query) = true
   → is_Some (extra_select (run_calls RefQuery sliced ref_query) !! "rn"))
  ∧ bound_set (run_calls RefQuery sliced ref_query) = true
  ∧ extra_select (run_calls RefQuery sliced ref_query) !! "rn"
    = Some ("ROW_NUMBER() OVER (ORDER BY " +:+ ref_orderby +:+ " )")
  ∧ (is_Some (extra_select (run_calls RefQuery cleared ref_query) !! "rn")
     ↔ limits_configured cleared = true)
  ∧ extra_select (run_calls RefQuery cleared ref_query) !! "rn" = None.
Proof.
  intros sliced cleared.
  split; [|split; [reflexivity|split; [reflexivity|split; [|reflexivity]]]].
  - apply (rn_present_when_bound_set RefQuery sliced ref_query
             RefQuery_limits_behave RefQuery_clear_limits_high
             RefQuery_keeps_bounds RefQuery_keeps_extra_select
             eq_refl eq_refl).
  - apply (rn_present_when_bound_set RefQuery cleared ref_query
             RefQuery_limits_behave RefQuery_clear_limits_high
             RefQuery_keeps_bounds RefQuery_keeps_extra_select
             eq_refl eq_refl).
Defined.

(** C3 as stated fails after [set_limits()] with no bound: the key [rn] is
    in [extra_select] although no bound is set, and [as_sql] generates the
    base statement, not a paginated one. *)
Lemma rn_present_without_bound :
  let q := run_calls RefQuery [CallSetLimits None None] ref_query in
  extra_select q !! "rn" = Some "1"
  ∧ low_mark q = Some 0
  ∧ high_mark q = None
  ∧ bound_set q = false
  ∧ as_sql RefQuery true false q = base_as_sql RefQuery false false q.
Proof. repeat split; reflexivity. Qed.

(** * More on value conversion *)

Section ConversionBranches.
Context (typecast_decimal : string → outcome pyvalue) (Database : DatabaseT).

Local Abbreviation convert := (convert_values typecast_decimal Database).

Lemma in_1_0_bool (value : pyvalue) :
  in_1_0 value = true →
  is_None value = false ∧ py_bool value = py_eq_int value 1.
Proof.
  unfold in_1_0. intros H.
  destruct value as [|b|n|x|c e| | | | | |]; try done; split; try done; cbn in *.
  - by destruct b.
  - destruct (Z.eqb_spec n 1) as [Hn|Hn]; [by subst|].
    cbn in H. by rewrite H.
  - destruct x as [s| | |s m e]; try done. cbn in *.
    destruct (0 <=? e) eqn:He.
    + apply Z.leb_le in He.
      assert (0 < 2 ^ e) by (by apply Z.pow_pos_nonneg).
      destruct s; repeat case_match; try done;
        apply orb_true_iff in H as [H|H]; try done;
        apply Z.eqb_eq in H; nia.
    + destruct s; repeat case_match; try done;
        apply orb_true_iff in H as [H|H]; try done;
        apply Z.eqb_eq in H; lia.
  - unfold decimal_eq_int in *.
    destruct (0 <=? e) eqn:He.
    + apply Z.leb_le in He.
      assert (0 < 10 ^ e) by (by apply Z.pow_pos_nonneg).
      apply orb_true_iff in H as [H|H].
      * rewrite H. apply Z.eqb_eq in H.
        destruct (Z.eqb_spec c 0) as [->|]; [lia|done].
      * apply Z.eqb_eq in H. assert (c = 0) as -> by nia.
        symmetry. rewrite Z.eqb_refl. cbn [negb]. apply Z.eqb_neq. lia.
    + apply Z.leb_gt in He.
      assert (0 < 10 ^ (- e)) by (apply Z.pow_pos_nonneg; lia).
      apply orb_true_iff in H as [H|H].
      * rewrite H. apply Z.eqb_eq in H.
        destruct (Z.eqb_spec c 0) as [->|]; [lia|done].
      * apply Z.eqb_eq in H. assert (c = 0) as -> by lia.
        symmetry. rewrite Z.eqb_refl. cbn [negb]. apply Z.eqb_neq. lia.
Qed.

(** X1. A large object is read before anything else is looked at:
    converting the handle is converting the string it holds, and with no
    field the string is the result. *)
Theorem convert_values_lob_read (c s : string) (field : option Field) :
  LOB Database = ClsDriver c →
  convert (VLob c s) field = convert (VStr s) field
  ∧ convert (VLob c s) None = Ok (VStr s).
Proof.
  intros Hlob. unfold convert_values. rewrite Hlob. cbn [isinstance].
  rewrite String.eqb_refl. cbn. by destruct (Timestamp Database).
Qed.

(** X2. [None] becomes the empty string when the field accepts the empty
    string and stays [None] otherwise, whatever the field's class and the
    driver: it is never formatted as a decimal nor read as a boolean. *)
Theorem convert_values_none (field : option Field) :
  convert VNone field = Ok (if accepts_empty field then VStr "" else VNone).
Proof.
  unfold convert_values, accepts_empty. cbn.
  destruct (LOB Database), (Timestamp Database), field as [f|]; cbn;
    try done; by destruct (empty_strings_allowed f).
Qed.

(** X3. With a boolean-like field, every value that Python finds equal to
    1 or 0 (an integer, a boolean, a float, a decimal) becomes a boolean,
    [True] exactly when it equals 1. *)
Theorem convert_values_boolean (value : pyvalue) (field : option Field) :
  isinstance value (LOB Database) = false →
  in_1_0 value = true →
  boolean_like field = true →
  convert value field = Ok (VBool (py_eq_int value 1)).
Proof.
  intros Hlob Hin Hbool. unfold convert_values. rewrite Hlob. cbn [obind].
  destruct (in_1_0_bool _ Hin) as [-> ->]. rewrite Hin. cbn [andb].
  fold (boolean_like field). by rewrite Hbool.
Qed.

(** X4. With a decimal field, every value other than [None] (1 and 0 and
    timestamps included) is rendered by the field's [format_number] and
    parsed by [typecast_decimal]; an exception of either is the
    exception of the conversion. *)
Theorem convert_values_decimal (value : pyvalue) (f : Field) :
  isinstance value (LOB Database) = false →
  is_None value = false →
  field_cls f = DecimalField →
  convert value (Some f) = obind (format_number f value) typecast_decimal.
Proof.
  intros Hlob Hnone Hcls. unfold convert_values.
  rewrite Hlob. cbn [obind]. rewrite Hnone. cbn [andb negb].
  unfold field_isinstance. rewrite Hcls. cbn.
  by rewrite andb_false_r.
Qed.

(** X5. Every other value is returned as it is: one that is not [None],
    not a large object nor a timestamp of the driver, with a field that is
    not a decimal field, and not equal to 1 or 0 unless the field is not
    boolean-like. *)
Theorem convert_values_passthrough (value : pyvalue) (field : option Field) :
  isinstance value (LOB Database) = false →
  isinstance value (Timestamp Database) = false →
  is_None value = false →
  in_1_0 value && boolean_like field = false →
  decimal_like field = false →
  convert value field = Ok value.
Proof.
  intros Hlob Hts Hnone Hbool Hdec. unfold convert_values.
  rewrite Hlob. cbn [obind]. rewrite Hnone. cbn [andb negb].
  fold (boolean_like field) (decimal_like field).
  by rewrite Hbool, Hdec, Hts.
Qed.

(** Strings, booleans, dates and times are left as they are by a field that
    is not a decimal field. *)
Lemma convert_values_converted (w : pyvalue) (field : option Field) :
  match w with
  | VStr _ | VBool _ | VDate _ | VTime _ => True
  | _ => False
  end →
  decimal_like field = false →
  convert w field = Ok w.
Proof.
  intros Hw Hdec. unfold convert_values.
  destruct w as [|b| | | |s| | | |d|t]; try done; cbn;
    fold (decimal_like field); rewrite ?Hdec; cbn; try done.
  by case_match.
Qed.

Lemma convert_values_timestamp_branch (value : pyvalue)
    (field : option Field) (dt : datetime) :
  isinstance value (LOB Database) = false →
  isinstance value (Timestamp Database) = true →
  to_datetime value = Ok dt →
  decimal_like field = false →
  convert value field = Ok (timestamp_by_field dt field).
Proof.
  intros Hlob Hts Hdt Hdec. unfold convert_values.
  rewrite Hlob. cbn [obind].
  destruct (to_datetime_not_number _ _ Hdt) as [-> ->]. cbn [andb negb].
  fold (decimal_like field). rewrite Hdec, Hts, Hdt. cbn [obind].
  unfold timestamp_by_field.
  rewrite chained_month_day, chained_midnight.
  by repeat case_match.
Qed.

(** X6. Converting a converted value again changes nothing: for a field
    that is not a decimal field, and a driver whose large-object class is
    not [datetime.datetime], a result of [convert_values] converts to
    itself. *)
Theorem convert_values_idempotent (value w : pyvalue) (field : option Field) :
  LOB Database ≠ ClsDatetime →
  decimal_like field = false →
  convert value field = Ok w →
  convert w field = Ok w.
Proof.
  intros Hlobcls Hdec Hconv. pose proof Hconv as H.
  unfold convert_values in H.
  destruct (isinstance value (LOB Database)) eqn:Hlob.
  { destruct value; try done. cbn in H.
    fold (decimal_like field) in H. rewrite Hdec in H. cbn in H.
    assert (w = VStr content) as ->
      by (destruct (Timestamp Database); by simplify_eq).
    by apply convert_values_converted. }
  cbn [obind] in H.
  destruct (is_None value && is_Field field && _) eqn:Hempty.
  { injection H as <-. by apply convert_values_converted. }
  destruct (in_1_0 value && _) eqn:Hbool.
  { injection H as <-. by apply convert_values_converted. }
  fold (decimal_like field) in H. rewrite Hdec, andb_false_r in H.
  destruct (isinstance value (Timestamp Database)) eqn:Hts;
    [|by injection H as <-].
  destruct (to_datetime value) as [dt|e] eqn:Hdt; [|done]. clear H.
  rewrite (convert_values_timestamp_branch value field dt) in Hconv by done.
  injection Hconv as <-.
  assert (timestamp_by_field dt field = VDatetime dt
          ∨ match timestamp_by_field dt field with
            | VStr _ | VBool _ | VDate _ | VTime _ => True
            | _ => False
            end) as [Hkept|Hshape]
    by (unfold timestamp_by_field; repeat case_match; auto).
  2:{ by apply convert_values_converted. }
  rewrite Hkept.
  assert (isinstance (VDatetime dt) (LOB Database) = false) as Hlob'
    by (by destruct (LOB Database)).
  destruct (isinstance (VDatetime dt) (Timestamp Database)) eqn:Hts'.
  - rewrite (convert_values_timestamp_branch (VDatetime dt) field dt) by done.
    by rewrite Hkept.
  - unfold convert_values. rewrite Hlob'.
    destruct (Timestamp Database); [done|]. cbn.
    fold (decimal_like field). by rewrite Hdec.
Qed.
End ConversionBranches.

Lemma convert_values_lob_read_witness :
  convert_values ref_typecast_decimal cx_Oracle (VLob "cx_Oracle.LOB" "") (Some name_field)
  = convert_values ref_typecast_decimal cx_Oracle (VStr "") (Some name_field)
  ∧ convert_values ref_typecast_decimal cx_Oracle (VLob "cx_Oracle.LOB" "") None
    = Ok (VStr "").
Proof.
  exact (convert_values_lob_read ref_typecast_decimal cx_Oracle
           "cx_Oracle.LOB" "" (Some name_field) eq_refl).
Defined.

(** The float 1.0 and the boolean [False] with a boolean field. *)
Lemma convert_values_boolean_witness :
  convert_values ref_typecast_decimal cx_Oracle
    (VFloat (S754_finite false 1 0)) (Some flag_field) = Ok (VBool true)
  ∧ convert_values ref_typecast_decimal cx_Oracle (VBool false) (Some flag_field)
    = Ok (VBool false).
Proof.
  split.
  - exact (convert_values_boolean ref_typecast_decimal cx_Oracle
             (VFloat (S754_finite false 1 0)) (Some flag_field)
             eq_refl eq_refl eq_refl).
  - exact (convert_values_boolean ref_typecast_decimal cx_Oracle
             (VBool false) (Some flag_field) eq_refl eq_refl eq_refl).
Defined.

(** The integer 1 with a decimal field is a decimal, not a boolean. *)
Lemma convert_values_decimal_witness :
  convert_values ref_typecast_decimal cx_Oracle (VInt 1) (Some price_field)
  = Ok (VDecimal 100 (-2)).
Proof.
  exact (convert_values_decimal ref_typecast_decimal cx_Oracle (VInt 1)
           price_field eq_refl eq_refl eq_refl).
Defined.

(** A string, the integer 2 with a boolean field, and the integer 1 with no
    field. *)
Lemma convert_values_passthrough_witness :
  convert_values ref_typecast_decimal cx_Oracle (VStr "abc") (Some name_field)
  = Ok (VStr "abc")
  ∧ convert_values ref_typecast_decimal cx_Oracle (VInt 2) (Some flag_field)
    = Ok (VInt 2)
  ∧ convert_values ref_typecast_decimal cx_Oracle (VInt 1) None = Ok (VInt 1).
Proof.
  split; [|split].
  - exact (convert_values_passthrough ref_typecast_decimal cx_Oracle
             (VStr "abc") (Some name_field)
             eq_refl eq_refl eq_refl eq_refl eq_refl).
  - exact (convert_values_passthrough ref_typecast_decimal cx_Oracle
             (VInt 2) (Some flag_field) eq_refl eq_refl eq_refl eq_refl eq_refl).
  - exact (convert_values_passthrough ref_typecast_decimal cx_Oracle
             (VInt 1) None eq_refl eq_refl eq_refl eq_refl eq_refl).
Defined.

(** A native timestamp read as a date, and the date converted again. *)
Lemma convert_values_idempotent_witness :
  convert_values ref_typecast_decimal other_driver
    (VDate (mkDate 2020 5 1)) None = Ok (VDate (mkDate 2020 5 1)).
Proof.
  apply (convert_values_idempotent ref_typecast_decimal other_driver
           (VTimestamp "other.Timestamp" 2020 5 1 0 0 0 0)
           (VDate (mkDate 2020 5 1)) None);
    [discriminate | reflexivity | reflexivity].
Defined.

(** * More on row resolution *)

Lemma map_None_nil_r (xs : list pyvalue) :
  map_None xs [] = map (λ v, (v, None)) xs.
Proof. induction xs as [|x xs IH]; cbn; [done|]. by rewrite IH. Qed.

Lemma each_Ok_map {A C} (f : A → outcome C) (g : A → C) (l : list A) :
  (∀ a, f a = Ok (g a)) → each f l = Ok (map g l).
Proof. intros Hfg. induction l as [|a l IH]; cbn; [done|]. by rewrite Hfg, IH. Qed.

Section RowShapes.
Context (typecast_decimal : string → outcome pyvalue) (Database : DatabaseT).
Context {B : Type}.

Local Abbreviation convert := (convert_values typecast_decimal Database).

(** X7. With no field list (the default), every value of the row is
    converted with no field, however many extra-select keys there are: the
    call returns [values] exactly when each value of the row converts to the
    value at its position. *)
Theorem resolve_columns_no_fields (self : Query B) (row values : list pyvalue) :
  resolve_columns typecast_decimal Database self row [] = Ok values
  ↔ Forall2 (λ v w, convert v None = Ok w) row values.
Proof.
  rewrite resolve_columns_each, each_Forall2. unfold resolve_pairs.
  rewrite map_None_nil_r, <- map_app, take_drop.
  by rewrite Forall2_fmap_l.
Qed.

(** X8. An empty row still yields one value per field: each field is
    paired with [None], which converts to the empty string for a field that
    accepts it and to [None] otherwise. *)
Theorem resolve_columns_empty_row (self : Query B) (fields : list Field) :
  resolve_columns typecast_decimal Database self [] fields
  = Ok (map (λ f, if empty_strings_allowed f then VStr "" else VNone) fields).
Proof.
  unfold resolve_columns. rewrite take_nil, drop_nil.
  change (map_None [] fields) with (map (λ y, (VNone, Some y)) fields).
  rewrite each_map.
  rewrite (each_Ok_map _
             (λ f, if empty_strings_allowed f then VStr "" else VNone)); [done|].
  intros f. unfold compose, convert_values. cbn.
  destruct (LOB Database), (Timestamp Database); cbn;
    by destruct (empty_strings_allowed f).
Qed.

(** X9. After [set_limits] on a query with no extra-select key, the first
    value of a row is the [rn] column: it is converted with no field, and
    the rest of the row is resolved against the fields as before
    [set_limits]. *)
Theorem resolve_columns_rn_column (QueryClass : QueryClassT B)
    (low high : option Z) (q : Query B) (rn : pyvalue) (row : list pyvalue)
    (fields : list Field) :
  limits_behave QueryClass →
  extra_select q = ∅ →
  resolve_columns typecast_decimal Database
    (set_limits QueryClass low high q).2 (rn :: row) fields
  = obind (convert rn None)
      (λ r, obind (resolve_columns typecast_decimal Database q row fields)
              (λ values, Ok (r :: values))).
Proof.
  intros Hlim Hempty.
  destruct (set_limits_run QueryClass low high q Hlim) as [q1 ->].
  unfold resolve_columns. cbn [snd set_extra_select extra_select].
  rewrite Hempty, insert_empty, map_size_singleton, map_size_empty. cbn.
  destruct (convert rn None) as [r|e]; cbn; [|done].
  match goal with |- context [each ?f ?l] => by destruct (each f l) end.
Qed.
End RowShapes.

Lemma resolve_columns_rn_column_witness :
  resolve_columns ref_typecast_decimal cx_Oracle
    (set_limits RefQuery (Some 5) (Some 15) ref_query).2
    [VInt 6; VInt 42; VNone] [id_field; name_field]
  = Ok [VInt 6; VInt 42; VStr ""].
Proof.
  exact (resolve_columns_rn_column ref_typecast_decimal cx_Oracle RefQuery
           (Some 5) (Some 15) ref_query (VInt 6) [VInt 42; VNone]
           [id_field; name_field] RefQuery_limits_behave eq_refl).
Defined.

(** * More on SQL generation and limits *)

Section CompilationEdges.
Context {B : Type} (QueryClass : QueryClassT B).
Implicit Types (q : Query B).

(** X10. When [get_ordering] returns clauses, the window is ordered by
    them, joined by a comma and a space; the model's table and fields and
    the quoting of names play no part. *)
Theorem as_sql_explicit_ordering (with_col_aliases : bool) q (low : Z) q1
    (cols : list string) q2 (o : string) (os : list string) q3
    (inner : string) (params : list pyvalue) q4 :
  compile_keeps_bounds QueryClass →
  low_mark q = Some low →
  truthy_mark (high_mark q) || truthy_mark (Some low) = true →
  base_pre_sql_setup QueryClass q = (Ok tt, q1) →
  base_get_columns QueryClass q1 = (Ok cols, q2) →
  base_get_ordering QueryClass q2 = (Ok (o :: os), q3) →
  base_as_sql QueryClass false true (with_rn (String.concat ", " (o :: os)) q3)
    = (Ok (inner, params), q4) →
  extra_select (with_rn (String.concat ", " (o :: os)) q3) !! "rn"
    = Some ("ROW_NUMBER() OVER (ORDER BY " +:+ String.concat ", " (o :: os)
            +:+ " )")
  ∧ as_sql QueryClass true with_col_aliases q
    = (Ok (paginated inner low (high_mark q), params), q4).
Proof.
  intros Hkeep Hlow Hdo Hpre Hcols Hord Hbase.
  pose proof (rn_orderby_sql_ordering QueryClass _ _ _ _ _ _ _ Hpre Hcols Hord)
    as Hrn.
  destruct (keeps_bounds_run _ _ _ _ (rn_orderby_sql_keeps _ _ Hkeep) Hrn)
    as (L3 & H3 & _).
  destruct (keeps_bounds_run _ _ _ _ (as_sql_keeps _ _ Hkeep false true) Hbase)
    as (L4 & H4 & _).
  cbn in L4, H4. rewrite L3, Hlow in L4. rewrite H3 in H4.
  split; [apply lookup_insert_eq|].
  rewrite <- H4.
  apply (as_sql_rewrite QueryClass with_col_aliases q
           (String.concat ", " (o :: os)) q3); try done.
  by rewrite Hlow.
Qed.

(** X11. When the rewrite runs, [as_sql] raises exactly in three ways: an
    exception of the set-up and order-by phase, an exception of the base
    [as_sql], both passed on unchanged with the state they left, or a
    [TypeError] when the low bound is [None] once the inner query has been
    generated. *)
Theorem as_sql_raises (with_col_aliases : bool) q (e : exn) q' :
  truthy_mark (high_mark q) || truthy_mark (low_mark q) = true →
  as_sql QueryClass true with_col_aliases q = (Raise e, q') ↔
  rn_orderby_sql QueryClass q = (Raise e, q')
  ∨ ∃ rn_orderby q1,
      rn_orderby_sql QueryClass q = (Ok rn_orderby, q1)
      ∧ (base_as_sql QueryClass false true (with_rn rn_orderby q1) = (Raise e, q')
         ∨ ∃ inner params,
             base_as_sql QueryClass false true (with_rn rn_orderby q1)
               = (Ok (inner, params), q')
             ∧ low_mark q' = None ∧ e = TypeError).
Proof.
  intros Hdo. unfold as_sql, mbind, M_bind, get. cbn. rewrite Hdo. cbn.
  destruct (rn_orderby_sql QueryClass q) as [[rn|e1] q1] eqn:Hrn.
  2:{ split; [intros [= <- <-]; by left|].
      intros [[= <- <-]|(rn & q2 & [=] & _)]. done. }
  unfold modify. fold (with_rn rn q1).
  destruct (base_as_sql QueryClass false true (with_rn rn q1))
    as [[[inner ps]|e2] q2] eqn:Hbase.
  2:{ split.
      - intros [= <- <-]. right. exists rn, q1. split; [done|by left].
      - intros [[=]|(rn' & q1' & [= <- <-] & [Hb|(i & p & Hb & _)])];
          rewrite Hbase in Hb; by simplify_eq. }
  unfold lift, mret, M_ret.
  destruct (low_mark q2) as [low|] eqn:Hlow; cbn.
  - split.
    + destruct (high_mark q2) as [h|]; cbn; [|done].
      by destruct (negb (h =? 0)).
    + intros [[=]|(rn' & q1' & [= <- <-] & [Hb|(i & p & Hb & Hnone & _)])];
        rewrite Hbase in Hb; simplify_eq; congruence.
  - split.
    + intros [= <- <-]. right. exists rn, q1. split; [done|].
      right. by exists inner, ps.
    + intros [[=]|(rn' & q1' & [= <- <-] & [Hb|(i & p & Hb & _ & ->)])];
        rewrite Hbase in Hb; by simplify_eq.
Qed.

(** X12. With no ordering and a model without fields, the rewrite raises
    [IndexError] after the table name has been quoted and before
    [extra_select] is written. *)
Theorem as_sql_no_fields (with_col_aliases : bool) q q1 (cols : list string)
    q2 q3 (t : string) q4 :
  truthy_mark (high_mark q) || truthy_mark (low_mark q) = true →
  base_pre_sql_setup QueryClass q = (Ok tt, q1) →
  base_get_columns QueryClass q1 = (Ok cols, q2) →
  base_get_ordering QueryClass q2 = (Ok [], q3) →
  fields (model_meta q3) = [] →
  base_quote_name_unless_alias QueryClass (db_table (model_meta q3)) q3
    = (Ok t, q4) →
  as_sql QueryClass true with_col_aliases q = (Raise IndexError, q4).
Proof.
  intros Hdo Hpre Hcols Hord Hfields Ht.
  unfold as_sql, mbind, M_bind, get. cbn. rewrite Hdo. cbn.
  unfold rn_orderby_sql, default_orderby, mbind, M_bind, get, lift.
  rewrite Hpre, Hcols, Hord. cbn. by rewrite Ht, Hfields.
Qed.

(** X13. [clear_limits] undoes [set_limits] on [extra_select]: after the
    two, the map is the one before without [rn], and [as_sql] is the base
    [as_sql] with limits disabled, with or without [with_limits]. *)
Theorem clear_limits_after_set_limits (low high : option Z) q
    (with_limits with_col_aliases : bool) :
  limits_behave QueryClass →
  let q' := (clear_limits QueryClass (set_limits QueryClass low high q).2).2 in
  extra_select q' = delete "rn" (extra_select q)
  ∧ as_sql QueryClass with_limits with_col_aliases q'
    = base_as_sql QueryClass false with_col_aliases q'.
Proof.
  intros Hlim q'.
  destruct (clear_limits_run QueryClass (set_limits QueryClass low high q).2 Hlim)
    as (Hes & Hlow & Hhigh).
  fold q' in Hes, Hlow, Hhigh. split.
  - rewrite Hes.
    destruct (set_limits_run QueryClass low high q Hlim) as [q1 ->]. cbn.
    apply delete_insert_eq.
  - apply as_sql_plain. by rewrite Hlow, Hhigh, andb_false_r.
Qed.

(** X14. No call to [set_limits], [clear_limits] or [as_sql] changes an
    extra-select entry other than [rn]. *)
Theorem run_calls_keeps_other_extras (history : list call) q (alias : string) :
  limits_behave QueryClass →
  compile_keeps_extra_select QueryClass →
  alias ≠ "rn" →
  extra_select (run_calls QueryClass history q) !! alias
  = extra_select q !! alias.
Proof.
  intros Hlim Hextra Halias. revert q.
  induction history as [|c history IH]; intros q; [done|].
  change (run_calls QueryClass (c :: history) q)
    with (run_calls QueryClass history (run_call QueryClass c q)).
  rewrite IH. clear IH.
  destruct c as [low high| |with_limits with_col_aliases]; cbn.
  - destruct (set_limits_run QueryClass low high q Hlim) as [q1 ->]. cbn.
    by rewrite lookup_insert_ne.
  - destruct (clear_limits_run QueryClass q Hlim) as [-> _].
    by rewrite lookup_delete_ne.
  - destruct (as_sql_extra_select QueryClass with_limits with_col_aliases q
                Hextra) as [->|[rn ->]]; [done|].
    by rewrite lookup_insert_ne.
Qed.
End CompilationEdges.

Lemma as_sql_explicit_ordering_witness :
  let q' := with_rn "name ASC, id DESC" ref_query_ordered in
  extra_select q' !! "rn"
    = Some "ROW_NUMBER() OVER (ORDER BY name ASC, id DESC )"
  ∧ as_sql RefQuery true false ref_query_ordered
    = (Ok (paginated
             ("SELECT (ROW_NUMBER() OVER (ORDER BY name ASC, id DESC )) AS rn, "
              +:+ "* FROM " +:+ ref_quote_name "app_item") 5 (Some 15), []), q').
Proof.
  exact (as_sql_explicit_ordering RefQuery false ref_query_ordered 5
           ref_query_ordered ["*"] ref_query_ordered "name ASC" ["id DESC"]
           ref_query_ordered _ [] _
           RefQuery_keeps_bounds eq_refl eq_refl eq_refl eq_refl eq_refl
           eq_refl).
Defined.

(** Only a high bound, the low bound [None]: a [TypeError], raised after
    [extra_select] was written. *)
Lemma as_sql_raises_witness :
  as_sql RefQuery true false (set_marks None (Some 15) ref_query)
  = (Raise TypeError, with_rn ref_orderby (set_marks None (Some 15) ref_query)).
Proof.
  apply (as_sql_raises RefQuery false (set_marks None (Some 15) ref_query)
           TypeError _ eq_refl).
  right. exists ref_orderby, (set_marks None (Some 15) ref_query).
  split; [reflexivity|]. right. by eexists _, _.
Defined.

Lemma as_sql_no_fields_witness :
  as_sql RefQuery true false ref_query_no_fields
  = (Raise IndexError, ref_query_no_fields).
Proof.
  exact (as_sql_no_fields RefQuery false ref_query_no_fields
           ref_query_no_fields ["*"] ref_query_no_fields ref_query_no_fields
           (ref_quote_name "app_item") ref_query_no_fields
           eq_refl eq_refl eq_refl eq_refl eq_refl eq_refl).
Defined.

Lemma clear_limits_after_set_limits_witness :
  let q' := (clear_limits RefQuery
               (set_limits RefQuery (Some 5) (Some 15) ref_query_extra).2).2 in
  extra_select q' = delete "rn" (extra_select ref_query_extra)
  ∧ as_sql RefQuery true false q' = base_as_sql RefQuery false false q'.
Proof.
  exact (clear_limits_after_set_limits RefQuery (Some 5) (Some 15)
           ref_query_extra true false RefQuery_limits_behave).
Defined.

Lemma run_calls_keeps_other_extras_witness :
  extra_select
    (run_calls RefQuery
       [CallSetLimits (Some 5) None; CallAsSql true false; CallClearLimits]
       ref_query_extra) !! "n"
  = Some "COUNT(*)".
Proof.
  rewrite (run_calls_keeps_other_extras RefQuery
             [CallSetLimits (Some 5) None; CallAsSql true false; CallClearLimits]
             ref_query_extra "n" RefQuery_limits_behave
             RefQuery_keeps_extra_select);
    [reflexivity | discriminate].
Defined.

(** * More on the class cache *)

Section CacheShape.
Context {B : Type}.
Implicit Types (g : module_state B) (T : QueryClassT B) (D : DatabaseT).

Lemma cache_wf_empty (n : N) : cache_wf (mkModule (B:=B) ∅ n).
Proof. intros k cls Hk. cbn in Hk. by rewrite lookup_empty in Hk. Qed.

Lemma query_class_wf T D g : cache_wf g → cache_wf (query_class T D g).2.
Proof.
  intros Hwf. unfold query_class.
  destruct (_classes g !! qc_ident T) as [c|] eqn:HT; [done|].
  intros k cls Hk. cbn in *.
  destruct (decide (k = qc_ident T)) as [->|Hne].
  - rewrite lookup_insert_eq in Hk. injection Hk as <-. cbn.
    split; [done|]. split; [lia|].
    intros k' cls' Hk' Hid.
    destruct (decide (k' = qc_ident T)) as [->|Hne']; [done|].
    rewrite lookup_insert_ne in Hk' by done.
    destruct (Hwf _ _ Hk') as (_ & Hlt & _). cbn in Hid. lia.
  - rewrite lookup_insert_ne in Hk by done.
    destruct (Hwf _ _ Hk) as (Hbase & Hlt & Huniq).
    split; [done|]. split; [lia|].
    intros k' cls' Hk' Hid.
    destruct (decide (k' = qc_ident T)) as [->|Hne'].
    + rewrite lookup_insert_eq in Hk'. injection Hk' as <-. cbn in Hid. lia.
    + rewrite lookup_insert_ne in Hk' by done. by apply (Huniq k' cls').
Qed.

Lemma query_class_calls_wf (calls : list (QueryClassT B * DatabaseT)) g :
  cache_wf g → cache_wf (query_class_calls calls g).
Proof.
  revert g. induction calls as [|[T D] calls IH]; intros g Hwf; [done|].
  cbn. apply IH. by apply query_class_wf.
Qed.

(** X15. Whatever calls came before, the class returned for a base class
    was built from a base class of that identity, and two base classes of
    different identity get different class objects. *)
Theorem query_class_distinct (calls : list (QueryClassT B * DatabaseT))
    (n : N) T1 D1 T2 D2 :
  qc_ident T1 ≠ qc_ident T2 →
  let g := query_class_calls calls (mkModule ∅ n) in
  let r1 := query_class T1 D1 g in
  let r2 := query_class T2 D2 r1.2 in
  oq_ident r1.1 ≠ oq_ident r2.1
  ∧ qc_ident (oq_QueryClass r1.1) = qc_ident T1
  ∧ qc_ident (oq_QueryClass r2.1) = qc_ident T2.
Proof.
  intros Hne g r1 r2.
  assert (cache_wf r2.2) as Hwf.
  { apply query_class_wf, query_class_wf, query_class_calls_wf, cache_wf_empty. }
  assert (_classes r2.2 !! qc_ident T1 = Some r1.1) as H1
    by apply query_class_keeps, query_class_stores.
  assert (_classes r2.2 !! qc_ident T2 = Some r2.1) as H2
    by apply query_class_stores.
  destruct (Hwf _ _ H1) as (Hb1 & _ & Huniq).
  destruct (Hwf _ _ H2) as (Hb2 & _ & _).
  split; [|done].
  intros Hid. apply Hne. symmetry. by apply (Huniq _ _ H2).
Qed.

Lemma query_class_grows T D g :
  dom (_classes (query_class T D g).2) = dom (_classes g) ∪ {[qc_ident T]}
  ∧ (next_ident (query_class T D g).2 + N.of_nat (size (_classes g))
     = next_ident g + N.of_nat (size (_classes (query_class T D g).2)))%N.
Proof.
  unfold query_class.
  destruct (_classes g !! qc_ident T) as [c|] eqn:HT; cbn.
  - split; [|done]. apply elem_of_dom_2 in HT. set_solver.
  - rewrite dom_insert_L, map_size_insert_None by done.
    split; [set_solver|lia].
Qed.

(** X16. After any run of calls on an empty cache, the cache holds exactly
    the base classes that were asked for, and one class object was built
    for each of them, however often it was asked for. *)
Theorem query_class_builds_once (calls : list (QueryClassT B * DatabaseT))
    (n : N) :
  let g := query_class_calls calls (mkModule ∅ n) in
  dom (_classes g) = list_to_set (map (λ c, qc_ident c.1) calls)
  ∧ next_ident g = (n + N.of_nat (size (_classes g)))%N.
Proof.
  intros g.
  assert (∀ g0 : module_state B,
            dom (_classes (query_class_calls calls g0))
            = dom (_classes g0) ∪ list_to_set (map (λ c, qc_ident c.1) calls)
            ∧ (next_ident (query_class_calls calls g0)
               + N.of_nat (size (_classes g0))
               = next_ident g0
                 + N.of_nat (size (_classes (query_class_calls calls g0))))%N)
    as Hgen.
  { induction calls as [|[T D] calls IH]; intros g0.
    - cbn. split; [set_solver|done].
    - change (query_class_calls ((T, D) :: calls) g0)
        with (query_class_calls calls (query_class T D g0).2).
      destruct (IH (query_class T D g0).2) as [Hdom Hnext].
      destruct (query_class_grows T D g0) as [Hdom0 Hnext0].
      split; [|lia].
      rewrite Hdom, Hdom0. cbn [map list_to_set fst]. set_solver. }
  destruct (Hgen (mkModule ∅ n)) as [Hdom Hnext]. fold g in Hdom, Hnext.
  cbn in Hdom, Hnext. rewrite map_size_empty in Hnext.
  split; [rewrite Hdom; set_solver|lia].
Qed.
End CacheShape.

Lemma query_class_distinct_witness :
  let r1 := query_class RefQuery cx_Oracle fresh_module in
  let r2 := query_class RefQuery2 cx_Oracle r1.2 in
  oq_ident r1.1 ≠ oq_ident r2.1
  ∧ qc_ident (oq_QueryClass r1.1) = qc_ident RefQuery
  ∧ qc_ident (oq_QueryClass r2.1) = qc_ident RefQuery2.
Proof.
  apply (query_class_distinct [] 0 RefQuery cx_Oracle RefQuery2 cx_Oracle).
  discriminate.
Defined.

(** * The driver module of a cached class *)

Lemma isinstance_other_class (value : pyvalue) (c : string) (cls : pyclass) :
  match value with
  | VLob c' _ | VTimestamp c' _ _ _ _ _ _ _ => c' = c
  | _ => False
  end →
  cls ≠ ClsDriver c →
  isinstance value cls = false.
Proof.
  intros Hc Hcls.
  destruct value; try done; subst; destruct cls as [|n]; try done; cbn;
    apply String.eqb_neq; congruence.
Qed.

Section CacheDriver.
Context {B : Type}.
Implicit Types (g : module_state B) (T : QueryClassT B) (D : DatabaseT).

(** C10. The cache is keyed on the base class alone: once [query_class]
    has built the class for [T] with the driver module [D1], a later call
    with [T] and another module [D2] returns that class, whose value
    conversion goes on testing against [D1]'s [LOB] and [Timestamp],
    whatever [D2] names: a large object of [D1]'s class is read and a
    timestamp of [D1]'s class is read by the field's kind, while a large
    object or a native timestamp of a class that [D1] does not name is
    returned as it is. *)
Theorem query_class_keeps_first_driver T D1 D2 g
    (calls : list (QueryClassT B * DatabaseT))
    (typecast_decimal : string → outcome pyvalue) :
  _classes g !! qc_ident T = None →
  let first := query_class T D1 g in
  let later := query_class T D2 (query_class_calls calls first.2) in
  later.1 = first.1
  ∧ oq_Database later.1 = D1
  ∧ (∀ value field,
       oq_convert_values typecast_decimal later.1 value field
       = convert_values typecast_decimal D1 value field)
  ∧ (∀ c s, LOB D1 = ClsDriver c →
       oq_convert_values typecast_decimal later.1 (VLob c s) None
       = Ok (VStr s))
  ∧ (∀ c s, LOB D1 ≠ ClsDriver c → Timestamp D1 ≠ ClsDriver c →
       oq_convert_values typecast_decimal later.1 (VLob c s) None
       = Ok (VLob c s))
  ∧ (∀ value field dt,
       isinstance value (LOB D1) = false →
       isinstance value (Timestamp D1) = true →
       to_datetime value = Ok dt →
       decimal_like field = false →
       oq_convert_values typecast_decimal later.1 value field
       = Ok (timestamp_by_field dt field))
  ∧ (∀ c y mo d h mi s fs,
       LOB D1 ≠ ClsDriver c → Timestamp D1 ≠ ClsDriver c →
       oq_convert_values typecast_decimal later.1
         (VTimestamp c y mo d h mi s fs) None
       = Ok (VTimestamp c y mo d h mi s fs)).
Proof.
  intros Hnew first later.
  assert (later.1 = first.1) as Hsame.
  { subst later.
    rewrite (query_class_cached _ _ _ first.1); [done|].
    apply query_class_calls_keeps, query_class_stores. }
  assert (oq_Database first.1 = D1) as Hdb.
  { subst first. by rewrite query_class_fresh. }
  split; [done|]. rewrite Hsame. split; [done|].
  unfold oq_convert_values. rewrite Hdb.
  split; [done|]. split; [|split; [|split]].
  - intros c s Hlob. unfold convert_values. rewrite Hlob. cbn [isinstance].
    rewrite String.eqb_refl. cbn. by destruct (Timestamp D1).
  - intros c s Hlob Hts. unfold convert_values.
    rewrite (isinstance_other_class (VLob c s) c (LOB D1)) by done.
    cbn [obind].
    by rewrite (isinstance_other_class (VLob c s) c (Timestamp D1)).
  - intros value field dt Hlob Hts Hdt Hdec.
    by apply convert_values_timestamp_branch.
  - intros c y mo d h mi s fs Hlob Hts. unfold convert_values.
    rewrite (isinstance_other_class (VTimestamp c y mo d h mi s fs) c (LOB D1))
      by done.
    cbn [obind].
    by rewrite (isinstance_other_class (VTimestamp c y mo d h mi s fs) c
                  (Timestamp D1)).
Qed.
End CacheDriver.

(** A class built for [cx_Oracle] and asked for again with another driver:
    it reads a [cx_Oracle] large object and reads a [datetime.datetime] by
    the field's kind, as [cx_Oracle] has it; a large object of the other
    driver is not read, and its native timestamp is not recognised. *)
Lemma query_class_keeps_first_driver_witness :
  let later :=
    query_class RefQuery other_driver
      (query_class_calls [(RefQuery2, other_driver)]
         (query_class RefQuery cx_Oracle fresh_module).2) in
  later.1 = mkOracleQuery 0%N RefQuery cx_Oracle
  ∧ oq_convert_values ref_typecast_decimal later.1
      (VLob "cx_Oracle.LOB" "text") None
    = Ok (VStr "text")
  ∧ oq_convert_values ref_typecast_decimal later.1
      (VDatetime (mkDatetime 1900 1 1 14 30 0 0)) (Some time_field)
    = Ok (VTime (mkTime 14 30 0 0))
  ∧ oq_convert_values ref_typecast_decimal later.1 (VLob "other.LOB" "text") None
    = Ok (VLob "other.LOB" "text")
  ∧ oq_convert_values ref_typecast_decimal later.1
      (VTimestamp "other.Timestamp" 2020 5 1 0 0 0 0) None
    = Ok (VTimestamp "other.Timestamp" 2020 5 1 0 0 0 0).
Proof.
  intros later.
  destruct (query_class_keeps_first_driver RefQuery cx_Oracle other_driver
              fresh_module [(RefQuery2, other_driver)] ref_typecast_decimal
              eq_refl)
    as (Hsame & _ & _ & Hread & Hkeep & Hts & Hnative).
  fold later in Hsame, Hread, Hkeep, Hts, Hnative.
  split; [exact Hsame|].
  split; [exact (Hread "cx_Oracle.LOB" "text" eq_refl)|].
  split; [exact (Hts (VDatetime (mkDatetime 1900 1 1 14 30 0 0))
                   (Some time_field) (mkDatetime 1900 1 1 14 30 0 0)
                   eq_refl eq_refl eq_refl eq_refl)|].
  split.
  - apply Hkeep; discriminate.
  - apply Hnative; discriminate.
Defined.
